(** * sysdesign-wiki: catalogue queries, category tables and prompt generation

    A shallow embedding of the TypeScript modules

    - [src/lib/prompt-generator.ts]   (the four prompt generators),
    - [src/data/types.ts], [src/lib/categories.ts]   (category tables),
    - [src/data/index.ts], [src/data/guides/index.ts]   (roster queries),
    - [src/pages/og/[slug].png.ts]   (the layout tree of the preview card),

    together with the properties the specification of the site states
    about them.

    JavaScript strings are modelled by [string], the UTF-8 encoding of
    the text: on ASCII, which is what the rosters and all but one
    character of the templates are, a character of the model is a code
    unit of the JavaScript string, and the dash of the fifth directive is
    its three bytes.  The generators only concatenate, so they cannot tell
    the encodings apart.  Comparison of strings, used by the tag listing
    alone, is made on the UTF-16 code units that the bytes encode
    ([JS.codeUnits]). *)

From Stdlib Require Import String Ascii List.
From stdpp Require Import base list strings gmap sorting pretty.

Import ListNotations.
Local Open Scope string_scope.
Local Open Scope list_scope.

(** ** JavaScript primitives used by the modules *)

Module JS.

  (** The line feed of a template literal that spans several lines. *)
Definition nl : string := String (ascii_of_nat 10) EmptyString.

  (** [Array.prototype.join]: the elements separated by [sep]; the empty
      array gives the empty string. *)
Fixpoint join (sep : string) (l : list string) : string :=
    match l with
    | [] => EmptyString
    | [x] => x
    | x :: rest => x +:+ sep +:+ join sep rest
    end.

  (** A template literal written over several source lines: its lines,
      each followed by a line feed except the last. *)
Definition template (lines : list string) : string := join nl lines.

  (** [a ?? b]: [b] when [a] is [undefined] (the absent optional field). *)
Definition nullish {A} (a : option A) (b : A) : A :=
    match a with
    | Some v => v
    | None => b
    end.

  (** [Array.prototype.find]: the first element satisfying the callback,
      or [undefined]. *)
Definition find {A} (f : A -> bool) (l : list A) : option A := List.find f l.

  (** [Array.prototype.filter]. *)
Definition filter {A} (f : A -> bool) (l : list A) : list A := List.filter f l.

  (** [Array.prototype.flatMap]. *)
Definition flatMap {A B} (f : A -> list B) (l : list A) : list B :=
    List.flat_map f l.

  (** [[...new Set(l)]]: a [Set] keeps each value once, in the order of
      first insertion; spreading it lists the values in that order. *)
Fixpoint Set_add_all {A} `{EqDecision A} (seen : list A) (l : list A) : list A :=
    match l with
    | [] => seen
    | x :: rest =>
        if decide (x ∈ seen) then Set_add_all seen rest
        else Set_add_all (seen ++ [x]) rest
    end.

Definition Set_spread {A} `{EqDecision A} (l : list A) : list A :=
  Set_add_all [] l.

  (** The bytes of a model string. *)
Fixpoint bytes (s : string) : list N :=
  match s with
  | EmptyString => []
  | String b rest => N_of_ascii b :: bytes rest
  end.

Definition continuation (b : N) : bool := (128 <=? b)%N && (b <=? 191)%N.

Definition payload (b : N) : N := N.land b 63.

  (** The UTF-16 code units of the JavaScript string that a model string
      encodes: one unit for a sequence of one, two or three bytes, the
      two surrogates for a sequence of four.  A three-byte sequence in the
      surrogate range stands for that lone surrogate.  A byte that opens
      no well-formed sequence belongs to no JavaScript string; it counts
      as U+FFFD. *)
Fixpoint codeUnits (s : string) : list N :=
  match s with
  | EmptyString => []
  | String a0 r0 =>
      let b0 := N_of_ascii a0 in
      if (b0 <? 128)%N then b0 :: codeUnits r0
      else
        match r0 with
        | String a1 r1 =>
            let b1 := N_of_ascii a1 in
            let two := (N.land b0 31 * 64 + payload b1)%N in
            if (192 <=? b0)%N && (b0 <=? 223)%N && continuation b1 && (128 <=? two)%N
            then two :: codeUnits r1
            else
              match r1 with
              | String a2 r2 =>
                  let b2 := N_of_ascii a2 in
                  let three := (N.land b0 15 * 4096 + payload b1 * 64 + payload b2)%N in
                  if (224 <=? b0)%N && (b0 <=? 239)%N && continuation b1
                     && continuation b2 && (2048 <=? three)%N
                  then three :: codeUnits r2
                  else
                    match r2 with
                    | String a3 r3 =>
                        let b3 := N_of_ascii a3 in
                        let four := (N.land b0 7 * 262144 + payload b1 * 4096
                                     + payload b2 * 64 + payload b3)%N in
                        if (240 <=? b0)%N && (b0 <=? 244)%N && continuation b1
                           && continuation b2 && continuation b3
                           && (65536 <=? four)%N && (four <=? 1114111)%N
                        then (55296 + (four - 65536) / 1024)%N
                             :: (56320 + (four - 65536) mod 1024)%N
                             :: codeUnits r3
                        else 65533%N :: codeUnits r0
                    | EmptyString => 65533%N :: codeUnits r0
                    end
              | EmptyString => 65533%N :: codeUnits r0
              end
        | EmptyString => [65533%N]
        end
  end.

  (** Lexicographic comparison of two sequences of numbers; a proper
      prefix comes first. *)
Fixpoint lex_compare (a b : list N) : comparison :=
  match a, b with
  | [], [] => Eq
  | [], _ :: _ => Lt
  | _ :: _, [] => Gt
  | x :: a', y :: b' =>
      match N.compare x y with
      | Eq => lex_compare a' b'
      | c => c
      end
  end.

  (** The comparison [Array.prototype.sort()] makes without a comparator:
      the strings by their code units.  Two model strings with the same
      code units are the same JavaScript string or hold an ill-formed
      byte; the bytes decide between them, so that the order is total and
      antisymmetric on every model string. *)
Definition compare (s t : string) : comparison :=
  match lex_compare (codeUnits s) (codeUnits t) with
  | Eq => lex_compare (bytes s) (bytes t)
  | c => c
  end.

Definition leb (s t : string) : bool :=
  match compare s t with
  | Gt => false
  | _ => true
  end.

Definition le (s t : string) : Prop := leb s t = true.

#[global] Instance le_dec : RelDecision le.
Proof. intros s t. unfold le. apply _. Defined.

  (** [Array.prototype.sort()] without a comparator: ascending in the
      order above.  The order is total and antisymmetric, so the sorted
      array is the same whatever algorithm the engine runs; a merge sort
      stands for it. *)
Definition sort (l : list string) : list string := merge_sort le l.

  (** [Array.prototype.slice(0, n)]. *)
Definition slice0 {A} (n : nat) (l : list A) : list A := take n l.

End JS.

Import JS.

(** ** The data model: [src/data/types.ts], [src/data/guides/types.ts] *)

(** The closed union of system categories ([src/lib/categories.ts], line 1;
    the content schema of [src/content.config.ts] lists the same eleven). *)
Inductive Category : Type :=
  | messaging | social | streaming | transport | search | commerce | infra
  | video | devtools | ai | productivity.

Inductive GuideCategory : Type :=
  | real_time | platform | data | reliability | security | media
  | collaboration.

#[global] Instance Category_eq_dec : EqDecision Category.
Proof. solve_decision. Defined.

#[global] Instance GuideCategory_eq_dec : EqDecision GuideCategory.
Proof. solve_decision. Defined.

(** The string a category is at run time, which is also the property name
    it selects in the tables. *)
Definition Category_key (c : Category) : string :=
  match c with
  | messaging => "messaging" | social => "social" | streaming => "streaming"
  | transport => "transport" | search => "search" | commerce => "commerce"
  | infra => "infra" | video => "video" | devtools => "devtools"
  | ai => "ai" | productivity => "productivity"
  end.

Definition GuideCategory_key (c : GuideCategory) : string :=
  match c with
  | real_time => "real-time" | platform => "platform" | data => "data"
  | reliability => "reliability" | security => "security" | media => "media"
  | collaboration => "collaboration"
  end.

Definition all_categories : list Category :=
  [messaging; social; streaming; transport; search; commerce; infra;
   video; devtools; ai; productivity].

Record Requirements : Type := mkRequirements {
  functional : list string;
  nonFunctional : list string
}.

Record Component : Type := mkComponent {
  comp_name : string;
  comp_description : string
}.

(** A deep-dive item; [diagram] is the optional field [diagram?: string]. *)
Record DeepDive : Type := mkDeepDive {
  dd_title : string;
  dd_content : string;
  dd_diagram : option string
}.

Record Tradeoff : Type := mkTradeoff {
  decision : string;
  pros : list string;
  cons : list string
}.

(** [scale : Record<string, string>]: the object's own properties in the
    order [Object.entries] enumerates them. *)
Record SystemDesign : Type := mkSystemDesign {
  slug : string;
  name : string;
  tagline : string;
  category : Category;
  tags : list string;
  overview : string;
  scale : list (string * string);
  requirements : Requirements;
  highLevelDiagram : string;
  components : list Component;
  dataModel : string;
  deepDive : list DeepDive;
  tradeoffs : list Tradeoff
}.

Record Approach : Type := mkApproach {
  ap_name : string;
  ap_description : string;
  ap_pros : list string;
  ap_cons : list string
}.

Record RealWorldExample : Type := mkRealWorldExample {
  ex_system : string;
  ex_approach : string
}.

Record FeatureGuide : Type := mkFeatureGuide {
  g_slug : string;
  g_title : string;
  g_tagline : string;
  g_category : GuideCategory;
  g_tags : list string;
  g_problem : string;
  g_approaches : list Approach;
  g_architectureDiagram : string;
  g_components : list Component;
  g_dataModel : string;
  g_deepDive : list DeepDive;
  g_realWorldExamples : list RealWorldExample;
  g_tradeoffs : list Tradeoff
}.

(** The entry of a content collection as the document-based generators
    take it: [{ data: { name, tagline }; body?: string }]. *)
Record SystemEntry : Type := mkSystemEntry {
  e_name : string;
  e_tagline : string;
  e_body : option string
}.

Record GuideEntry : Type := mkGuideEntry {
  ge_title : string;
  ge_tagline : string;
  ge_body : option string
}.

(** ** The prompt generators: [src/lib/prompt-generator.ts] *)

Module PromptGenerator.

Definition generateBuildPromptFromMdx (entry : SystemEntry) : string :=
    let name := e_name entry in
    let tagline := e_tagline entry in
    let body := nullish (e_body entry) "" in
    template [
      "# Build a " +:+ name +:+ "-like System";
      "";
      "You are an expert software architect. I want to build a production-grade application inspired by " +:+ name +:+ " (" +:+ tagline +:+ ").";
      "";
      "Use the following system design reference to guide the architecture, tech choices, and implementation. Adapt it to my specific needs while preserving the key architectural patterns that make this system work at scale.";
      "";
      "---";
      "";
      "## System Design Reference";
      body;
      "";
      "---";
      "";
      "## Instructions";
      "";
      "Based on the architecture above, please:";
      "";
      "1. **Choose a modern tech stack** appropriate for my team size and scale targets. Justify each choice.";
      "2. **Design the database schema** with proper indexes, partitioning strategy, and replication approach.";
      "3. **Implement the core services** starting with the most critical path (e.g., message delivery for messaging, feed generation for social).";
      "4. **Set up the infrastructure** with containerization, CI/CD, monitoring, and observability.";
      "5. **Plan for scale** — identify the components that will need horizontal scaling first and design them to be stateless where possible.";
      "";
      "Start by asking me clarifying questions about my specific requirements, team size, budget, and timeline. Then produce a phased implementation plan.";
      ""
    ].

Definition generateBuildPrompt (system : SystemDesign) : string :=
    let scaleLines :=
      join nl (map (fun '(k, v) => "- " +:+ k +:+ ": " +:+ v) (scale system)) in
    let funcReqs :=
      join nl (map (fun r => "- " +:+ r) (functional (requirements system))) in
    let nonFuncReqs :=
      join nl (map (fun r => "- " +:+ r) (nonFunctional (requirements system))) in
    let components :=
      join (nl +:+ nl)
        (map (fun c => "### " +:+ comp_name c +:+ nl +:+ comp_description c)
             (components system)) in
    let deepDives :=
      join (nl +:+ nl)
        (map (fun d => "### " +:+ dd_title d +:+ nl +:+ dd_content d)
             (deepDive system)) in
    let tradeoffs :=
      join (nl +:+ nl)
        (map (fun t =>
                "### " +:+ decision t +:+ nl +:+
                "**Pros:** " +:+ join "; " (pros t) +:+ nl +:+
                "**Cons:** " +:+ join "; " (cons t))
             (tradeoffs system)) in
    template [
      "# Build a " +:+ name system +:+ "-like System";
      "";
      "You are an expert software architect. I want to build a production-grade application inspired by " +:+ name system +:+ " (" +:+ tagline system +:+ ").";
      "";
      "Use the following system design reference to guide the architecture, tech choices, and implementation. Adapt it to my specific needs while preserving the key architectural patterns that make this system work at scale.";
      "";
      "---";
      "";
      "## Overview";
      overview system;
      "";
      "## Target Scale";
      scaleLines;
      "";
      "## Functional Requirements";
      funcReqs;
      "";
      "## Non-Functional Requirements";
      nonFuncReqs;
      "";
      "## Architecture Components";
      components;
      "";
      "## Data Model (Mermaid ER Diagram)";
      "```mermaid";
      dataModel system;
      "```";
      "";
      "## Key Architectural Deep Dives";
      deepDives;
      "";
      "## Tradeoffs to Consider";
      tradeoffs;
      "";
      "---";
      "";
      "## Instructions";
      "";
      "Based on the architecture above, please:";
      "";
      "1. **Choose a modern tech stack** appropriate for my team size and scale targets. Justify each choice.";
      "2. **Design the database schema** with proper indexes, partitioning strategy, and replication approach.";
      "3. **Implement the core services** starting with the most critical path (e.g., message delivery for messaging, feed generation for social).";
      "4. **Set up the infrastructure** with containerization, CI/CD, monitoring, and observability.";
      "5. **Plan for scale** — identify the components that will need horizontal scaling first and design them to be stateless where possible.";
      "";
      "Start by asking me clarifying questions about my specific requirements, team size, budget, and timeline. Then produce a phased implementation plan.";
      ""
    ].

Section Guides.

    (** [String.prototype.toLowerCase], a primitive of the run time whose
        case tables are not part of the repository. *)
Variable toLowerCase : string -> string.

Definition generateGuidePromptFromMdx (entry : GuideEntry) : string :=
      let title := ge_title entry in
      let tagline := ge_tagline entry in
      let body := nullish (ge_body entry) "" in
      template [
        "# How to Build: " +:+ title;
        "";
        "You are an expert software architect. I want to implement " +:+ toLowerCase title +:+ " in my application. (" +:+ tagline +:+ ").";
        "";
        "Use the following architectural guide to inform the design. Adapt it to my specific needs while preserving the key patterns.";
        "";
        "---";
        "";
        body;
        "";
        "---";
        "";
        "## Instructions";
        "";
        "Based on the architecture above, please:";
        "";
        "1. **Recommend an approach** best suited for my scale, team, and constraints. Justify the choice.";
        "2. **Design the data model** with proper indexes, partitioning, and storage strategy.";
        "3. **Implement the core logic** with production-ready error handling and edge cases.";
        "4. **Plan for scale** — identify bottlenecks and design for horizontal scaling.";
        "5. **Add observability** — logging, metrics, and alerting for this feature.";
        "";
        "Start by asking me clarifying questions about my specific requirements, existing tech stack, and scale targets. Then produce a phased implementation plan.";
        ""
      ].

Definition generateGuidePrompt (guide : FeatureGuide) : string :=
      let approaches :=
        join (nl +:+ nl)
          (imap (fun i a =>
                   "### Approach " +:+ pretty (i + 1)%nat +:+ ": " +:+ ap_name a +:+ nl +:+
                   ap_description a +:+ nl +:+
                   "**Pros:** " +:+ join "; " (ap_pros a) +:+ nl +:+
                   "**Cons:** " +:+ join "; " (ap_cons a))
                (g_approaches guide)) in
      let components :=
        join (nl +:+ nl)
          (map (fun c => "### " +:+ comp_name c +:+ nl +:+ comp_description c)
               (g_components guide)) in
      let deepDives :=
        join (nl +:+ nl)
          (map (fun d => "### " +:+ dd_title d +:+ nl +:+ dd_content d)
               (g_deepDive guide)) in
      let examples :=
        join nl
          (map (fun e => "- **" +:+ ex_system e +:+ "**: " +:+ ex_approach e)
               (g_realWorldExamples guide)) in
      let tradeoffs :=
        join (nl +:+ nl)
          (map (fun t =>
                  "### " +:+ decision t +:+ nl +:+
                  "**Pros:** " +:+ join "; " (pros t) +:+ nl +:+
                  "**Cons:** " +:+ join "; " (cons t))
               (g_tradeoffs guide)) in
      template [
        "# How to Build: " +:+ g_title guide;
        "";
        "You are an expert software architect. I want to implement " +:+ toLowerCase (g_title guide) +:+ " in my application. (" +:+ g_tagline guide +:+ ").";
        "";
        "Use the following architectural guide to inform the design. Adapt it to my specific needs while preserving the key patterns.";
        "";
        "---";
        "";
        "## Problem";
        g_problem guide;
        "";
        "## Architectural Approaches";
        approaches;
        "";
        "## Key Components";
        components;
        "";
        "## Data Model (Mermaid ER Diagram)";
        "```mermaid";
        g_dataModel guide;
        "```";
        "";
        "## Deep Dives";
        deepDives;
        "";
        "## Real-World Examples";
        examples;
        "";
        "## Tradeoffs";
        tradeoffs;
        "";
        "---";
        "";
        "## Instructions";
        "";
        "Based on the architecture above, please:";
        "";
        "1. **Recommend an approach** best suited for my scale, team, and constraints. Justify the choice.";
        "2. **Design the data model** with proper indexes, partitioning, and storage strategy.";
        "3. **Implement the core logic** with production-ready error handling and edge cases.";
        "4. **Plan for scale** — identify bottlenecks and design for horizontal scaling.";
        "5. **Add observability** — logging, metrics, and alerting for this feature.";
        "";
        "Start by asking me clarifying questions about my specific requirements, existing tech stack, and scale targets. Then produce a phased implementation plan.";
        ""
      ].

End Guides.

End PromptGenerator.

Import PromptGenerator.

(** ** Category tables *)

(** An object literal whose keys and values are strings: the properties are
    set in source order, a repeated key keeping its last value. *)
Definition object_literal (props : list (string * string)) : gmap string string :=
  foldl (fun m kv => <[kv.1 := kv.2]> m) ∅ props.

(** [src/data/types.ts], the tables the legacy roster module re-exports,
    in the revision that declares the eleven categories and that the
    roster of seventeen records is typed against ([src/unnamed/part_013]). *)
Module Types.

Definition categoryLabels : gmap string string :=
  object_literal [
    ("messaging", "Messaging"); ("social", "Social Media"); ("streaming", "Streaming");
    ("transport", "Transportation"); ("search", "Search & Discovery");
    ("commerce", "E-Commerce"); ("infra", "Infrastructure");
    ("video", "Video & Conferencing"); ("devtools", "Developer Tools");
    ("ai", "AI & ML"); ("productivity", "Productivity")
  ].

Definition categoryColors : gmap string string :=
  object_literal [
    ("messaging", "bg-cat-messaging"); ("social", "bg-cat-social"); ("streaming", "bg-cat-streaming");
    ("transport", "bg-cat-transport"); ("search", "bg-cat-search");
    ("commerce", "bg-cat-commerce"); ("infra", "bg-cat-infra");
    ("video", "bg-cat-video"); ("devtools", "bg-cat-devtools");
    ("ai", "bg-cat-ai"); ("productivity", "bg-cat-productivity")
  ].

End Types.

(** The same module in its first revision, with seven categories (the
    file named [src/data/types.ts] in the snapshot); its roster had six
    records, all of these categories. *)
Module TypesFirstRevision.

Definition categoryLabels : gmap string string :=
  object_literal [
    ("messaging", "Messaging"); ("social", "Social Media"); ("streaming", "Streaming");
    ("transport", "Transportation"); ("search", "Search & Discovery");
    ("commerce", "E-Commerce"); ("infra", "Infrastructure")
  ].

Definition categoryColors : gmap string string :=
  object_literal [
    ("messaging", "bg-cat-messaging"); ("social", "bg-cat-social"); ("streaming", "bg-cat-streaming");
    ("transport", "bg-cat-transport"); ("search", "bg-cat-search");
    ("commerce", "bg-cat-commerce"); ("infra", "bg-cat-infra")
  ].

End TypesFirstRevision.

(** [src/lib/categories.ts]: the tables of the document-based site. *)
Module Categories.

Definition categoryLabels : gmap string string :=
  object_literal [
    ("messaging", "Messaging"); ("social", "Social Media"); ("streaming", "Streaming");
    ("transport", "Transportation"); ("search", "Search & Discovery");
    ("commerce", "E-Commerce"); ("infra", "Infrastructure");
    ("video", "Video & Conferencing"); ("devtools", "Developer Tools");
    ("ai", "AI & ML"); ("productivity", "Productivity")
  ].

Definition categoryColors : gmap string string :=
  object_literal [
    ("messaging", "bg-cat-messaging"); ("social", "bg-cat-social"); ("streaming", "bg-cat-streaming");
    ("transport", "bg-cat-transport"); ("search", "bg-cat-search");
    ("commerce", "bg-cat-commerce"); ("infra", "bg-cat-infra");
    ("video", "bg-cat-video"); ("devtools", "bg-cat-devtools");
    ("ai", "bg-cat-ai"); ("productivity", "bg-cat-productivity")
  ].

Definition guideCategoryLabels : gmap string string :=
  object_literal [
    ("real-time", "Real-Time & Communication");
    ("platform", "SaaS Platform");
    ("data", "Data & Search");
    ("reliability", "Reliability & Infra");
    ("security", "Security & Payments");
    ("media", "Media & Files");
    ("collaboration", "Collaboration & UX")
  ].

Definition guideCategoryColors : gmap string string :=
  object_literal [
    ("real-time", "bg-gcat-realtime");
    ("platform", "bg-gcat-platform");
    ("data", "bg-gcat-data");
    ("reliability", "bg-gcat-reliability");
    ("security", "bg-gcat-security");
    ("media", "bg-gcat-media");
    ("collaboration", "bg-gcat-collaboration")
  ].

End Categories.

(** ** A record of the legacy roster: [src/data/google-drive.ts] *)

Section GoogleDrive.

(** The narrative fields are long literals that no property below reads;
    they stay parameters of the record. *)
Variables (overview_ : string) (scale_ : list (string * string))
  (requirements_ : Requirements) (highLevelDiagram_ : string)
  (components_ : list Component) (dataModel_ : string)
  (deepDive_ : list DeepDive) (tradeoffs_ : list Tradeoff).

Definition googleDrive : SystemDesign := {|
  slug := "google-drive";
  name := "Google Drive";
  tagline := "Cloud file storage and real-time collaboration at planetary scale";
  category := productivity;
  tags := ["storage"; "collaboration"; "sync"; "sharing"; "cloud"; "google"];
  overview := overview_;
  scale := scale_;
  requirements := requirements_;
  highLevelDiagram := highLevelDiagram_;
  components := components_;
  dataModel := dataModel_;
  deepDive := deepDive_;
  tradeoffs := tradeoffs_
|}.

End GoogleDrive.

(** ** The roster queries: [src/data/index.ts], [src/data/guides/index.ts] *)

(** [a === b] on two categories compares the strings they are. *)
Definition Category_strict_eq (a b : Category) : bool :=
  String.eqb (Category_key a) (Category_key b).

Definition GuideCategory_strict_eq (a b : GuideCategory) : bool :=
  String.eqb (GuideCategory_key a) (GuideCategory_key b).

Module Index.
Section Roster.

(** The module constant [systems]: the records in the order the array
    literal lists them. *)
Variable systems : list SystemDesign.

Definition getSystemBySlug (slug_ : string) : option SystemDesign :=
  JS.find (fun s => String.eqb (slug s) slug_) systems.

Definition getSystemsByCategory (category_ : Category) : list SystemDesign :=
  JS.filter (fun s => Category_strict_eq (category s) category_) systems.

Definition getAllCategories : list Category :=
  Set_spread (map category systems).

Definition getAllTags : list string :=
  JS.sort (Set_spread (flatMap tags systems)).

End Roster.
End Index.

Module GuidesIndex.
Section Roster.

Variable guides : list FeatureGuide.

Definition getGuideBySlug (slug_ : string) : option FeatureGuide :=
  JS.find (fun g => String.eqb (g_slug g) slug_) guides.

Definition getGuidesByCategory (category_ : GuideCategory) : list FeatureGuide :=
  JS.filter (fun g => GuideCategory_strict_eq (g_category g) category_) guides.

Definition getAllGuideCategories : list GuideCategory :=
  Set_spread (map g_category guides).

Definition getAllGuideTags : list string :=
  JS.sort (Set_spread (flatMap g_tags guides)).

End Roster.
End GuidesIndex.

(** ** The preview card of a system: [src/pages/og/[slug].png.ts] *)

Module OgImage.

(** A style value is a string or a number; a number is kept by the text
    of its literal. *)
Inductive StyleValue : Type :=
  | Str (s : string)
  | Num (literal : string).

(** The layout tree handed to the renderer: an element with child
    elements (none when the [children] property is left out), or an
    element whose [children] is a string expression, [undefined] when the
    expression is a table lookup that misses. *)
#[local] Unset Elimination Schemes.
Inductive Node : Type :=
  | Element (type : string) (style : list (string * StyleValue)) (children : list Node)
  | TextElement (type : string) (style : list (string * StyleValue)) (text : option string).
#[local] Set Elimination Schemes.

Definition categoryColor : gmap string string :=
  object_literal [
    ("messaging", "#2d6a4f");
    ("social", "#7b2d8b");
    ("streaming", "#c2185b");
    ("transport", "#1565c0");
    ("search", "#e65100");
    ("commerce", "#4e342e");
    ("infra", "#37474f")
  ].

(** [categoryColor[system.category] ?? ...]: no member of [Category] names
    a property that an object literal inherits, so the property read is a
    lookup among the seven own properties. *)
Definition color (system : SystemDesign) : string :=
  nullish (categoryColor !! Category_key (category system)) "#6b4c3b".

Definition scaleEntries (system : SystemDesign) : list (string * string) :=
  slice0 4 (scale system).

(** The first argument of the renderer call in [GET]. *)
Definition card (system : SystemDesign) : Node :=
  let color := color system in
  Element "div"
    [("width", Str "1200px"); ("height", Str "630px"); ("display", Str "flex");
     ("flexDirection", Str "column"); ("backgroundColor", Str "#fafaf8");
     ("fontFamily", Str "Inter"); ("position", Str "relative");
     ("overflow", Str "hidden")]
    [ (* top accent bar *)
      Element "div"
        [("position", Str "absolute"); ("top", Num "0"); ("left", Num "0");
         ("right", Num "0"); ("height", Str "6px"); ("backgroundColor", Str color)]
        [];
      (* decorative background element *)
      Element "div"
        [("position", Str "absolute"); ("top", Str "-80px"); ("right", Str "-80px");
         ("width", Str "400px"); ("height", Str "400px"); ("borderRadius", Str "50%");
         ("backgroundColor", Str color); ("opacity", Num "0.04")]
        [];
      (* main content *)
      Element "div"
        [("display", Str "flex"); ("flexDirection", Str "column");
         ("justifyContent", Str "space-between"); ("padding", Str "56px 64px");
         ("flex", Num "1")]
        [ (* top: branding and category *)
          Element "div"
            [("display", Str "flex"); ("justifyContent", Str "space-between");
             ("alignItems", Str "center")]
            [ Element "div"
                [("display", Str "flex"); ("alignItems", Str "center"); ("gap", Str "12px")]
                [ TextElement "div"
                    [("width", Str "36px"); ("height", Str "36px"); ("borderRadius", Str "6px");
                     ("backgroundColor", Str "#6b4c3b"); ("display", Str "flex");
                     ("alignItems", Str "center"); ("justifyContent", Str "center");
                     ("color", Str "white"); ("fontSize", Str "18px"); ("fontWeight", Num "700")]
                    (Some "S");
                  TextElement "span"
                    [("fontSize", Str "20px"); ("fontWeight", Num "600");
                     ("color", Str "#1a1a1a"); ("letterSpacing", Str "-0.01em")]
                    (Some "SysDesignWiki") ];
              TextElement "div"
                [("backgroundColor", Str color); ("color", Str "white");
                 ("fontSize", Str "14px"); ("fontWeight", Num "600");
                 ("padding", Str "6px 18px"); ("borderRadius", Str "20px")]
                (Types.categoryLabels !! Category_key (category system)) ];
          (* middle: title and tagline *)
          Element "div"
            [("display", Str "flex"); ("flexDirection", Str "column"); ("gap", Str "16px")]
            [ TextElement "div"
                [("fontSize", Str "14px"); ("fontWeight", Num "600");
                 ("textTransform", Str "uppercase"); ("letterSpacing", Str "0.15em");
                 ("color", Str color)]
                (Some "System Design & Architecture");
              TextElement "h1"
                [("fontFamily", Str "Playfair Display"); ("fontSize", Str "64px");
                 ("fontWeight", Num "700"); ("color", Str "#1a1a1a");
                 ("lineHeight", Num "1.1"); ("margin", Num "0");
                 ("letterSpacing", Str "-0.02em")]
                (Some ("How to Build " +:+ name system));
              TextElement "p"
                [("fontSize", Str "22px"); ("color", Str "#4a4a4a");
                 ("lineHeight", Num "1.4"); ("margin", Num "0"); ("maxWidth", Str "700px")]
                (Some (tagline system)) ];
          (* bottom: scale metrics *)
          Element "div"
            [("display", Str "flex"); ("gap", Str "32px")]
            (map (fun '(key, value) =>
                    Element "div"
                      [("display", Str "flex"); ("flexDirection", Str "column"); ("gap", Str "2px")]
                      [ TextElement "span"
                          [("fontFamily", Str "Playfair Display"); ("fontSize", Str "24px");
                           ("fontWeight", Num "700"); ("color", Str color)]
                          (Some value);
                        TextElement "span"
                          [("fontSize", Str "13px"); ("color", Str "#8a8a8a")]
                          (Some key) ])
                 (scaleEntries system)) ] ].

(** Navigation in the tree, to name the parts of the card. *)
Fixpoint node_at (path : list nat) (n : Node) : option Node :=
  match path with
  | [] => Some n
  | i :: rest =>
      match n with
      | Element _ _ children =>
          match children !! i with
          | Some c => node_at rest c
          | None => None
          end
      | TextElement _ _ _ => None
      end
  end.

Definition style_of (n : Node) : list (string * StyleValue) :=
  match n with
  | Element _ style _ => style
  | TextElement _ style _ => style
  end.

(** A property of a style object: the value of its last occurrence. *)
Definition style_get (key : string) (style : list (string * StyleValue)) : option StyleValue :=
  foldl (fun acc kv => if String.eqb kv.1 key then Some kv.2 else acc) None style.

Definition backgroundColor_at (path : list nat) (n : Node) : option StyleValue :=
  match node_at path n with
  | Some e => style_get "backgroundColor" (style_of e)
  | None => None
  end.

(** The top accent bar is the first child of the root. *)
Definition accentBar : list nat := [0%nat].

(** The category badge is the second child of the top row of the main
    content. *)
Definition categoryBadge : list nat := [2%nat; 0%nat; 1%nat].

Definition text_at (path : list nat) (n : Node) : option (option string) :=
  match node_at path n with
  | Some (TextElement _ _ t) => Some t
  | _ => None
  end.

End OgImage.

(** ** The vocabulary of the specification

    What the specification calls a line, a section, a directive, and the
    layout it prescribes for a prompt, written from its wording so that the
    generators above can be compared with it. *)

Module Spec.

Definition LF : ascii := ascii_of_nat 10.

(** The lines of a text: the pieces between line feeds. *)
Fixpoint lines (s : string) : list string :=
  match s with
  | EmptyString => [EmptyString]
  | String c rest =>
      if Ascii.eqb c LF then EmptyString :: lines rest
      else match lines rest with
           | [] => [String c EmptyString]
           | l :: ls => String c l :: ls
           end
  end.

Definition firstLine (s : string) : string := hd EmptyString (lines s).

(** The part of a text from the last occurrence of [heading] on. *)
Fixpoint lastSection (heading s : string) : option string :=
  match s with
  | EmptyString => if String.prefix heading s then Some s else None
  | String _ rest =>
      match lastSection heading rest with
      | Some found => Some found
      | None => if String.prefix heading s then Some s else None
      end
  end.

(** The closing block of a prompt. *)
Definition instructionsBlock (prompt : string) : option string :=
  lastSection "## Instructions" prompt.

Definition is_digit (c : ascii) : bool :=
  let n := nat_of_ascii c in (48 <=? n)%nat && (n <=? 57)%nat.

(** A numbered directive is a line that opens with a digit and a dot. *)
Definition isDirective (line : string) : bool :=
  match line with
  | String d (String "."%char _) => is_digit d
  | _ => false
  end.

Definition directivesOf (prompt : string) : list string :=
  match instructionsBlock prompt with
  | Some block => List.filter isDirective (lines block)
  | None => []
  end.

(** The sentence a block closes with: its last line that is not empty. *)
Definition closingOf (prompt : string) : option string :=
  match instructionsBlock prompt with
  | Some block =>
      last (List.filter (fun l => negb (String.eqb l EmptyString)) (lines block))
  | None => None
  end.

(** *** The layout of a system prompt (section 4.4) *)

Definition systemTitle (name : string) : string :=
  "# Build a " +:+ name +:+ "-like System".

Definition systemParagraph (name tagline : string) : string :=
  "You are an expert software architect. I want to build a production-grade application inspired by "
    +:+ name +:+ " (" +:+ tagline +:+ ").".

Definition systemGuidance : string :=
  "Use the following system design reference to guide the architecture, tech choices, and implementation. Adapt it to my specific needs while preserving the key architectural patterns that make this system work at scale.".

Definition rule : string := "---".

Definition blank : string := nl +:+ nl.

Definition bullet (text : string) : string := "- " +:+ text.

Definition scaleBullet (entry : string * string) : string :=
  "- " +:+ entry.1 +:+ ": " +:+ entry.2.

Definition componentBlock (c : Component) : string :=
  join nl ["### " +:+ comp_name c; comp_description c].

(** A deep dive contributes its title and its content. *)
Definition deepDiveBlock (title content : string) : string :=
  join nl ["### " +:+ title; content].

Definition tradeoffBlock (t : Tradeoff) : string :=
  join nl ["### " +:+ decision t;
           "**Pros:** " +:+ join "; " (pros t);
           "**Cons:** " +:+ join "; " (cons t)].

Definition fenced (tag text : string) : string :=
  join nl ["```" +:+ tag; text; "```"].

(** The sections of a system prompt, heading and body, in the order the
    specification fixes. *)
Definition systemSections (s : SystemDesign) : list (string * string) :=
  [ ("## Overview", overview s);
    ("## Target Scale", join nl (map scaleBullet (scale s)));
    ("## Functional Requirements", join nl (map bullet (functional (requirements s))));
    ("## Non-Functional Requirements", join nl (map bullet (nonFunctional (requirements s))));
    ("## Architecture Components", join blank (map componentBlock (components s)));
    ("## Data Model (Mermaid ER Diagram)", fenced "mermaid" (dataModel s));
    ("## Key Architectural Deep Dives",
       join blank (map (fun d => deepDiveBlock (dd_title d) (dd_content d)) (deepDive s)));
    ("## Tradeoffs to Consider", join blank (map tradeoffBlock (tradeoffs s))) ].

Definition renderSection (sec : string * string) : string :=
  sec.1 +:+ nl +:+ sec.2.

Definition systemDirectives : list string :=
  [ "1. **Choose a modern tech stack** appropriate for my team size and scale targets. Justify each choice.";
    "2. **Design the database schema** with proper indexes, partitioning strategy, and replication approach.";
    "3. **Implement the core services** starting with the most critical path (e.g., message delivery for messaging, feed generation for social).";
    "4. **Set up the infrastructure** with containerization, CI/CD, monitoring, and observability.";
    "5. **Plan for scale** — identify the components that will need horizontal scaling first and design them to be stateless where possible." ].

Definition systemClosing : string :=
  "Start by asking me clarifying questions about my specific requirements, team size, budget, and timeline. Then produce a phased implementation plan.".

Definition guideDirectives : list string :=
  [ "1. **Recommend an approach** best suited for my scale, team, and constraints. Justify the choice.";
    "2. **Design the data model** with proper indexes, partitioning, and storage strategy.";
    "3. **Implement the core logic** with production-ready error handling and edge cases.";
    "4. **Plan for scale** — identify bottlenecks and design for horizontal scaling.";
    "5. **Add observability** — logging, metrics, and alerting for this feature." ].

Definition guideClosing : string :=
  "Start by asking me clarifying questions about my specific requirements, existing tech stack, and scale targets. Then produce a phased implementation plan.".

(** The closing block: heading, lead-in, the numbered directives, the
    closing sentence, and the final line feed. *)
Definition instructionsSection (directives : list string) (closing : string) : string :=
  join nl (["## Instructions"; ""; "Based on the architecture above, please:"; ""]
           ++ directives ++ [""; closing; ""]).

(** A prompt: title, introduction, the reference between two rules, and
    the closing block, separated by blank lines. *)
Definition prompt (title intro reference closing : string) : string :=
  join blank [title; intro; rule; reference; rule; closing].

Definition systemPrompt (s : SystemDesign) : string :=
  prompt (systemTitle (name s))
         (join blank [systemParagraph (name s) (tagline s); systemGuidance])
         (join blank (map renderSection (systemSections s)))
         (instructionsSection systemDirectives systemClosing).

Definition systemPromptFromBody (name tagline body : string) : string :=
  prompt (systemTitle name)
         (join blank [systemParagraph name tagline; systemGuidance])
         (renderSection ("## System Design Reference", body))
         (instructionsSection systemDirectives systemClosing).

(** The headings of a system prompt in their fixed order. *)
Definition systemHeadings : list string :=
  [ "## Overview"; "## Target Scale"; "## Functional Requirements";
    "## Non-Functional Requirements"; "## Architecture Components";
    "## Data Model (Mermaid ER Diagram)"; "## Key Architectural Deep Dives";
    "## Tradeoffs to Consider"; "## Instructions" ].

(** Two records that differ at most in the fields [slug], [tags],
    [highLevelDiagram] and in the [diagram] of their deep dives. *)
Definition sameApartFromUnusedFields (a b : SystemDesign) : Prop :=
  name a = name b /\ tagline a = tagline b /\ category a = category b /\
  overview a = overview b /\ scale a = scale b /\
  requirements a = requirements b /\ components a = components b /\
  dataModel a = dataModel b /\ tradeoffs a = tradeoffs b /\
  map (fun d => (dd_title d, dd_content d)) (deepDive a) =
  map (fun d => (dd_title d, dd_content d)) (deepDive b).

(** *** The layout of a guide prompt built from a document body *)

Definition guideTitle (title : string) : string := "# How to Build: " +:+ title.

Definition guideParagraph (lowered tagline : string) : string :=
  "You are an expert software architect. I want to implement "
    +:+ lowered +:+ " in my application. (" +:+ tagline +:+ ").".

Definition guideGuidance : string :=
  "Use the following architectural guide to inform the design. Adapt it to my specific needs while preserving the key patterns.".

Definition guidePromptFromBody (lowered title tagline body : string) : string :=
  prompt (guideTitle title)
         (join blank [guideParagraph lowered tagline; guideGuidance])
         body
         (instructionsSection guideDirectives guideClosing).

(** [piece] occurs in [text]. *)
Definition occursIn (piece text : string) : Prop :=
  exists before after, text = before +:+ piece +:+ after.

(** The record with the diagram of every deep dive removed. *)
Definition eraseDiagrams (s : SystemDesign) : SystemDesign := {|
  slug := slug s;
  name := name s;
  tagline := tagline s;
  category := category s;
  tags := tags s;
  overview := overview s;
  scale := scale s;
  requirements := requirements s;
  highLevelDiagram := highLevelDiagram s;
  components := components s;
  dataModel := dataModel s;
  deepDive := map (fun d => mkDeepDive (dd_title d) (dd_content d) None) (deepDive s);
  tradeoffs := tradeoffs s
|}.

End Spec.

(** ** Sample records *)

Module Samples.

(** The record of the specification's examples: one scale entry
    [Users: 1M] and the trade-off [X] with pros [a], [b] and con [c]. *)
Definition acme : SystemDesign := {|
  slug := "acme";
  name := "Acme";
  tagline := "Anvils on demand";
  category := commerce;
  tags := ["delivery"; "caching"];
  overview := "Acme ships anvils.";
  scale := [("Users", "1M")];
  requirements := mkRequirements ["Order an anvil"] ["Low latency"];
  highLevelDiagram := "graph TD; A-->B";
  components := [mkComponent "Gateway" "Routes the orders."];
  dataModel := "erDiagram";
  deepDive := [mkDeepDive "Dispatch" "How orders are routed." (Some "sequenceDiagram")];
  tradeoffs := [mkTradeoff "X" ["a"; "b"] ["c"]]
|}.

(** The same article under another slug, with other tags and other
    diagrams. *)
Definition acmeRetagged : SystemDesign := {|
  slug := "acme-2";
  name := "Acme";
  tagline := "Anvils on demand";
  category := commerce;
  tags := ["real-time"];
  overview := "Acme ships anvils.";
  scale := [("Users", "1M")];
  requirements := mkRequirements ["Order an anvil"] ["Low latency"];
  highLevelDiagram := "graph LR; B-->A";
  components := [mkComponent "Gateway" "Routes the orders."];
  dataModel := "erDiagram";
  deepDive := [mkDeepDive "Dispatch" "How orders are routed." None];
  tradeoffs := [mkTradeoff "X" ["a"; "b"] ["c"]]
|}.

(** A record that reuses the slug of [acme]. *)
Definition acmeShadow : SystemDesign := {|
  slug := "acme";
  name := "Acme Two";
  tagline := "Second entry under the same slug";
  category := messaging;
  tags := ["real-time"; "caching"];
  overview := "";
  scale := [];
  requirements := mkRequirements [] [];
  highLevelDiagram := "";
  components := [];
  dataModel := "";
  deepDive := [];
  tradeoffs := []
|}.

Definition roster : list SystemDesign := [acmeRetagged; acme; acmeShadow].

Definition sseGuide : FeatureGuide := {|
  g_slug := "server-sent-events";
  g_title := "Server-Sent Events";
  g_tagline := "One-way streaming over HTTP";
  g_category := real_time;
  g_tags := ["real-time"; "streaming"; "HTTP"];
  g_problem := "";
  g_approaches := [];
  g_architectureDiagram := "";
  g_components := [];
  g_dataModel := "";
  g_deepDive := [];
  g_realWorldExamples := [];
  g_tradeoffs := []
|}.

Definition webhooksGuide : FeatureGuide := {|
  g_slug := "webhooks";
  g_title := "Webhooks";
  g_tagline := "Event delivery to third parties";
  g_category := reliability;
  g_tags := ["webhooks"; "HTTP"; "retry"];
  g_problem := "";
  g_approaches := [];
  g_architectureDiagram := "";
  g_components := [];
  g_dataModel := "";
  g_deepDive := [];
  g_realWorldExamples := [];
  g_tradeoffs := []
|}.

Definition guideRoster : list FeatureGuide := [sseGuide; webhooksGuide].

End Samples.

(** ** The routes of the preview cards

    [getStaticPaths] of [src/pages/og/[slug].png.ts] and of
    [src/pages/og/guides/[slug].png.ts]: one route per record, with the
    slug as parameter and the record as property. *)

Module OgRoutes.

Record SystemPath : Type := mkSystemPath {
  params_slug : string;
  props_system : SystemDesign
}.

Record GuidePath : Type := mkGuidePath {
  g_params_slug : string;
  props_guide : FeatureGuide
}.

Section Roster.

Variable systems : list SystemDesign.
Variable guides : list FeatureGuide.

Definition getStaticPaths : list SystemPath :=
  map (fun system => {| params_slug := slug system; props_system := system |}) systems.

Definition getGuideStaticPaths : list GuidePath :=
  map (fun guide => {| g_params_slug := g_slug guide; props_guide := guide |}) guides.

End Roster.
End OgRoutes.

(** ** The preview card of a guide: [src/pages/og/guides/[slug].png.ts]

    The two constants [GET] computes from the guide before it lays the
    card out. *)

Module GuideOgImage.

Definition categoryColor : gmap string string :=
  object_literal [
    ("real-time", "#0d7377");
    ("platform", "#5b21b6");
    ("data", "#b45309");
    ("reliability", "#064e3b");
    ("security", "#991b1b");
    ("media", "#7c3aed");
    ("collaboration", "#0369a1")
  ].

Definition color (guide : FeatureGuide) : string :=
  nullish (categoryColor !! GuideCategory_key (g_category guide)) "#6b4c3b".

Definition tagList (guide : FeatureGuide) : list string :=
  slice0 5 (g_tags guide).

End GuideOgImage.

(** ** The content schema: [src/content.config.ts]

    The values the two [z.enum] declarations accept for [category]. *)

Module ContentConfig.

Definition systemCategories : list string :=
  ["messaging"; "social"; "streaming"; "transport"; "search"; "commerce";
   "infra"; "video"; "devtools"; "ai"; "productivity"].

Definition guideCategories : list string :=
  ["real-time"; "platform"; "data"; "reliability"; "security"; "media";
   "collaboration"].

End ContentConfig.

Definition all_guide_categories : list GuideCategory :=
  [real_time; platform; data; reliability; security; media; collaboration].

(** ** Further vocabulary and samples *)

Module GuideSpec.

(** The headings of a legacy guide prompt, in template order. *)
Definition guideHeadings : list string :=
  [ "## Problem"; "## Architectural Approaches"; "## Key Components";
    "## Data Model (Mermaid ER Diagram)"; "## Deep Dives";
    "## Real-World Examples"; "## Tradeoffs"; "## Instructions" ].

(** The lines of the approach at position [i], counted from zero. *)
Definition approachBlock (i : nat) (a : Approach) : string :=
  join nl ["### Approach " +:+ pretty (i + 1)%nat +:+ ": " +:+ ap_name a;
           ap_description a;
           "**Pros:** " +:+ join "; " (ap_pros a);
           "**Cons:** " +:+ join "; " (ap_cons a)].

(** What both guide generators put before the first rule. *)
Definition guidePreamble (lowered title tagline : string) : string :=
  join nl [Spec.guideTitle title; "";
           Spec.guideParagraph lowered tagline; "";
           Spec.guideGuidance; "";
           "---"; ""; ""].

(** Two guides that differ at most in [slug], [category], [tags],
    [architectureDiagram] and the [diagram] of their deep dives. *)
Definition sameApartFromUnusedFields (a b : FeatureGuide) : Prop :=
  g_title a = g_title b /\ g_tagline a = g_tagline b /\
  g_problem a = g_problem b /\ g_approaches a = g_approaches b /\
  g_components a = g_components b /\ g_dataModel a = g_dataModel b /\
  g_realWorldExamples a = g_realWorldExamples b /\
  g_tradeoffs a = g_tradeoffs b /\
  map (fun d => (dd_title d, dd_content d)) (g_deepDive a) =
  map (fun d => (dd_title d, dd_content d)) (g_deepDive b).

(** The system record whose list fields are all empty. *)
Definition bare (name_ tagline_ overview_ dataModel_ : string) : SystemDesign := {|
  slug := "";
  name := name_;
  tagline := tagline_;
  category := infra;
  tags := [];
  overview := overview_;
  scale := [];
  requirements := mkRequirements [] [];
  highLevelDiagram := "";
  components := [];
  dataModel := dataModel_;
  deepDive := [];
  tradeoffs := []
|}.

End GuideSpec.

Module MoreSamples.

Definition cachingGuide : FeatureGuide := {|
  g_slug := "caching-strategies";
  g_title := "Caching Strategies";
  g_tagline := "Serve hot data fast";
  g_category := data;
  g_tags := ["caching"; "Redis"; "invalidation"; "performance"; "distributed"; "TTL"];
  g_problem := "Reads outnumber writes.";
  g_approaches :=
    [mkApproach "Cache-aside" "The application fills the cache." ["simple"] ["stale reads"];
     mkApproach "Write-through" "Writes go through the cache." ["fresh"; "consistent"] []];
  g_architectureDiagram := "graph TD; App-->Cache";
  g_components := [mkComponent "Cache" "Holds hot keys."];
  g_dataModel := "erDiagram";
  g_deepDive := [mkDeepDive "Eviction" "LRU and friends." (Some "graph LR; A-->B")];
  g_realWorldExamples := [mkRealWorldExample "Netflix" "EVCache"];
  g_tradeoffs := [mkTradeoff "TTL length" ["fresh"] ["load"]]
|}.

(** The same guide under another slug, in another category, with other
    tags and diagrams. *)
Definition cachingGuideMoved : FeatureGuide := {|
  g_slug := "caching";
  g_title := "Caching Strategies";
  g_tagline := "Serve hot data fast";
  g_category := reliability;
  g_tags := ["cache"];
  g_problem := "Reads outnumber writes.";
  g_approaches :=
    [mkApproach "Cache-aside" "The application fills the cache." ["simple"] ["stale reads"];
     mkApproach "Write-through" "Writes go through the cache." ["fresh"; "consistent"] []];
  g_architectureDiagram := "graph LR; Cache-->App";
  g_components := [mkComponent "Cache" "Holds hot keys."];
  g_dataModel := "erDiagram";
  g_deepDive := [mkDeepDive "Eviction" "LRU and friends." None];
  g_realWorldExamples := [mkRealWorldExample "Netflix" "EVCache"];
  g_tradeoffs := [mkTradeoff "TTL length" ["fresh"] ["load"]]
|}.

(** A system with five scale entries. *)
Definition wideScale : SystemDesign := {|
  slug := "wide";
  name := "Wide";
  tagline := "Many metrics";
  category := streaming;
  tags := ["video"];
  overview := "First overview.";
  scale := [("Users", "1B"); ("Hours", "1M"); ("Regions", "30"); ("Edges", "900");
            ("Codecs", "12")];
  requirements := mkRequirements ["Play"] ["Fast"];
  highLevelDiagram := "graph TD";
  components := [];
  dataModel := "erDiagram";
  deepDive := [];
  tradeoffs := []
|}.

(** The same card data with another fifth metric and another article. *)
Definition wideScaleOther : SystemDesign := {|
  slug := "wide-2";
  name := "Wide";
  tagline := "Many metrics";
  category := streaming;
  tags := ["CDN"];
  overview := "Second overview.";
  scale := [("Users", "1B"); ("Hours", "1M"); ("Regions", "30"); ("Edges", "900");
            ("Bitrates", "7"); ("Studios", "3")];
  requirements := mkRequirements [] [];
  highLevelDiagram := "graph LR";
  components := [mkComponent "Edge" "Serves segments."];
  dataModel := "";
  deepDive := [];
  tradeoffs := [mkTradeoff "Push or pull" ["a"] ["b"]]
|}.

(** A roster without repeated slug. *)
Definition distinctRoster : list SystemDesign :=
  [Samples.acme; wideScale; Samples.acmeRetagged].

(** A record with tags outside ASCII: U+FF5E, one code unit, and U+1F600,
    a surrogate pair. *)
Definition unicodeTags : SystemDesign := {|
  slug := "unicode";
  name := "Unicode";
  tagline := "Tags outside ASCII";
  category := infra;
  tags := ["～"; "😀"; "z"];
  overview := "";
  scale := [];
  requirements := mkRequirements [] [];
  highLevelDiagram := "";
  components := [];
  dataModel := "";
  deepDive := [];
  tradeoffs := []
|}.

(** A document entry with a body of two lines. *)
Definition acmeEntry : SystemEntry :=
  mkSystemEntry "Acme" "Anvils on demand" (Some ("## Overview" +:+ nl +:+ "Acme ships anvils.")).

Definition sseEntry : GuideEntry :=
  mkGuideEntry "Server-Sent Events" "One-way streaming over HTTP"
    (Some ("## Problem" +:+ nl +:+ "Clients poll.")).

End MoreSamples.

(** * Properties *)

(** ** Strings, lines and joins *)

Lemma string_app_assoc (a b c : string) : (a +:+ b) +:+ c = a +:+ (b +:+ c).
Proof.
  induction a as [|x a IH]; [done|].
  change (String x ((a +:+ b) +:+ c) = String x (a +:+ (b +:+ c))).
  by rewrite IH.
Qed.

Lemma string_app_nil_r (a : string) : a +:+ "" = a.
Proof.
  induction a as [|x a IH]; [done|].
  change (String x (a +:+ "") = String x a).
  by rewrite IH.
Qed.

Lemma lines_nonempty (s : string) : Spec.lines s <> [].
Proof.
  destruct s as [|c s]; [done|]. cbn.
  destruct (Ascii.eqb c Spec.LF); [done|]. by destruct (Spec.lines s).
Qed.

(** A line feed between two texts separates their lines. *)
Lemma lines_app_nl (a b : string) :
  Spec.lines (a +:+ nl +:+ b) = Spec.lines a ++ Spec.lines b.
Proof.
  induction a as [|c a IH]; [done|].
  change (Spec.lines (String c (a +:+ nl +:+ b))
          = Spec.lines (String c a) ++ Spec.lines b).
  cbn [Spec.lines]. rewrite IH.
  destruct (Ascii.eqb c Spec.LF); [done|].
  pose proof (lines_nonempty a). by destruct (Spec.lines a).
Qed.

Lemma lines_template (x : string) (rest : list string) :
  Spec.lines (template (x :: rest)) = concat (map Spec.lines (x :: rest)).
Proof.
  unfold template. revert x. induction rest as [|y rest IH]; intros x.
  - cbn. by rewrite app_nil_r.
  - change (join nl (x :: y :: rest)) with (x +:+ nl +:+ join nl (y :: rest)).
    by rewrite lines_app_nl, IH.
Qed.

(** Template lines that hold no line feed stay lines of the text, in the
    order of the template. *)
Lemma sublist_lines (hs template_lines : list string) :
  hs `sublist_of` template_lines ->
  Forall (fun h => Spec.lines h = [h]) hs ->
  hs `sublist_of` concat (map Spec.lines template_lines).
Proof.
  induction 1 as [|h hs L _ IH|x hs L _ IH]; intros Hline; cbn [map concat].
  - apply sublist_nil_l.
  - inversion Hline as [|? ? Hh Hhs]; subst. rewrite Hh. cbn.
    apply sublist_skip. by apply IH.
  - apply sublist_inserts_l. by apply IH.
Qed.

Ltac solve_sublist :=
  repeat first [ apply sublist_nil_l | apply sublist_skip | apply sublist_cons ].

(** Text put in front of a section does not change which section is last. *)
Lemma lastSection_app (heading a rest block : string) :
  Spec.lastSection heading rest = Some block ->
  Spec.lastSection heading (a +:+ rest) = Some block.
Proof.
  intros H. induction a as [|c a IH]; [done|].
  change (Spec.lastSection heading (String c (a +:+ rest)) = Some block).
  cbn [Spec.lastSection]. by rewrite IH.
Qed.

Ltac find_block :=
  repeat first [ solve [vm_compute; reflexivity] | apply lastSection_app ].

Lemma occursIn_refl (x : string) : Spec.occursIn x x.
Proof. exists "", "". by rewrite string_app_nil_r. Qed.

Lemma occursIn_app_r (x a b : string) :
  Spec.occursIn x b -> Spec.occursIn x (a +:+ b).
Proof.
  intros (p & q & ->). exists (a +:+ p), q. by rewrite string_app_assoc.
Qed.

Lemma occursIn_app_l (x a b : string) :
  Spec.occursIn x a -> Spec.occursIn x (a +:+ b).
Proof.
  intros (p & q & ->). exists p, (q +:+ b). by rewrite !string_app_assoc.
Qed.

Lemma occursIn_here (x a b c rest : string) :
  Spec.occursIn x (a +:+ b +:+ c) -> Spec.occursIn x (a +:+ b +:+ c +:+ rest).
Proof.
  intros H. rewrite <- (string_app_assoc b c rest), <- (string_app_assoc a).
  by apply occursIn_app_l.
Qed.

(** An element of a joined list stands between two line feeds as soon as
    the separator opens and closes with one and the whole is framed by
    line feeds. *)
Lemma occursIn_join (sep p q x : string) (l : list string) :
  sep = nl +:+ p -> sep = q +:+ nl -> x ∈ l ->
  Spec.occursIn (nl +:+ x +:+ nl) (nl +:+ join sep l +:+ nl).
Proof.
  intros Hp Hq. induction l as [|y [|z r] IH]; intros Hx.
  - by apply elem_of_nil in Hx.
  - apply list_elem_of_singleton in Hx as ->. apply occursIn_refl.
  - change (join sep (y :: z :: r)) with (y +:+ sep +:+ join sep (z :: r)).
    apply elem_of_cons in Hx as [->|Hx].
    + rewrite Hp at 1. rewrite !string_app_assoc.
      exists "", (p +:+ join sep (z :: r) +:+ nl).
      by rewrite !string_app_assoc.
    + specialize (IH Hx). rewrite Hq at 1. rewrite !string_app_assoc.
      rewrite <- (string_app_assoc y q), <- (string_app_assoc nl (y +:+ q)).
      by apply occursIn_app_r.
Qed.

Lemma elem_of_map_intro {A B} (f : A -> B) (l : list A) (x : A) (y : B) :
  y = f x -> x ∈ l -> y ∈ map f l.
Proof.
  intros -> Hx. apply list_elem_of_In, in_map. by apply list_elem_of_In.
Qed.

Ltac find_piece sep p q x :=
  repeat first
    [ solve [ apply occursIn_here; apply (occursIn_join sep p q); [done..|];
              apply (elem_of_map_intro _ _ x); [reflexivity|assumption] ]
    | apply occursIn_app_r ].

(** ** The legacy system prompt *)

Lemma scaleLines_spec (l : list (string * string)) :
  map (fun '(k, v) => "- " +:+ k +:+ ": " +:+ v) l = map Spec.scaleBullet l.
Proof. apply map_ext. by intros [k v]. Qed.

Ltac unfold_spec :=
  unfold Spec.systemPrompt, Spec.systemPromptFromBody, Spec.guidePromptFromBody,
    Spec.prompt, Spec.systemSections,
    Spec.instructionsSection, Spec.systemDirectives, Spec.guideDirectives,
    Spec.blank, Spec.rule, Spec.systemTitle, Spec.systemParagraph,
    Spec.systemGuidance, Spec.guideTitle, Spec.guideParagraph, Spec.guideGuidance,
    Spec.systemClosing, Spec.guideClosing, Spec.fenced, template;
  cbn [join map app]; unfold Spec.renderSection; cbn [fst snd].

(** The generator produces the layout of section 4.4. *)
Lemma generateBuildPrompt_systemPrompt (s : SystemDesign) :
  generateBuildPrompt s = Spec.systemPrompt s.
Proof.
  unfold generateBuildPrompt. rewrite scaleLines_spec.
  unfold_spec. rewrite !string_app_assoc. reflexivity.
Qed.

Lemma generateBuildPrompt_block (s : SystemDesign) :
  Spec.instructionsBlock (generateBuildPrompt s)
  = Some (Spec.instructionsSection Spec.systemDirectives Spec.systemClosing).
Proof.
  unfold generateBuildPrompt, template, Spec.instructionsBlock. cbn [join].
  find_block.
Qed.

Lemma generateBuildPrompt_eraseDiagrams (s : SystemDesign) :
  generateBuildPrompt (Spec.eraseDiagrams s) = generateBuildPrompt s.
Proof.
  unfold generateBuildPrompt, Spec.eraseDiagrams. cbn [deepDive name tagline
    overview scale requirements components dataModel tradeoffs].
  by rewrite map_map.
Qed.

(** C1. For every record [s], the prompt opens with the line
    [# Build a {name}-like System]; the headings Overview, Target Scale,
    Functional Requirements, Non-Functional Requirements, Architecture
    Components, Data Model, Key Architectural Deep Dives, Tradeoffs to
    Consider and Instructions are lines of it in this order, and the whole
    text is the layout of section 4.4 over [Spec.systemSections]; the
    Target Scale body is the bullets [- key: value] of the scale entries in
    their order, every scale entry, trade-off and deep dive shows up in its
    prescribed lines, and removing the diagrams of the deep dives leaves
    the text unchanged. *)
Theorem C1_generateBuildPrompt_layout (s : SystemDesign) :
  (exists rest, generateBuildPrompt s = Spec.systemTitle (name s) +:+ nl +:+ rest) /\
  Spec.systemHeadings `sublist_of` Spec.lines (generateBuildPrompt s) /\
  generateBuildPrompt s = Spec.systemPrompt s /\
  map fst (Spec.systemSections s) ++ ["## Instructions"] = Spec.systemHeadings /\
  Spec.systemSections s !! 1%nat
    = Some ("## Target Scale",
            join nl (map (fun e => "- " +:+ e.1 +:+ ": " +:+ e.2) (scale s))) /\
  (forall e, e ∈ scale s ->
     Spec.occursIn (nl +:+ ("- " +:+ e.1 +:+ ": " +:+ e.2) +:+ nl)
       (generateBuildPrompt s)) /\
  (forall t, t ∈ tradeoffs s ->
     Spec.occursIn
       (nl +:+ ("### " +:+ decision t +:+ nl +:+
                "**Pros:** " +:+ join "; " (pros t) +:+ nl +:+
                "**Cons:** " +:+ join "; " (cons t)) +:+ nl)
       (generateBuildPrompt s)) /\
  (forall d, d ∈ deepDive s ->
     Spec.occursIn (nl +:+ ("### " +:+ dd_title d +:+ nl +:+ dd_content d) +:+ nl)
       (generateBuildPrompt s)) /\
  generateBuildPrompt (Spec.eraseDiagrams s) = generateBuildPrompt s.
Proof.
  split_and!.
  - unfold generateBuildPrompt, template. cbn [join]. eauto.
  - unfold generateBuildPrompt. rewrite lines_template.
    apply sublist_lines; [unfold Spec.systemHeadings; solve_sublist|].
    repeat constructor.
  - apply generateBuildPrompt_systemPrompt.
  - reflexivity.
  - reflexivity.
  - intros [k v] He. unfold generateBuildPrompt, template. cbn [join fst snd].
    find_piece nl "" "" (k, v).
  - intros t Ht. unfold generateBuildPrompt, template. cbn [join].
    find_piece (nl +:+ nl) nl nl t.
  - intros d Hd. unfold generateBuildPrompt, template. cbn [join].
    find_piece (nl +:+ nl) nl nl d.
  - apply generateBuildPrompt_eraseDiagrams.
Qed.

(** On a single-line name the title is the first line in the strict
    sense. *)
Lemma lines_app_single (a b : string) :
  Spec.lines a = [a] -> Spec.lines b = [b] -> Spec.lines (a +:+ b) = [a +:+ b].
Proof.
  revert b. induction a as [|c a IH]; intros b Ha Hb; [done|].
  change (Spec.lines (String c (a +:+ b)) = [String c (a +:+ b)]).
  cbn [Spec.lines] in *. revert Ha.
  destruct (Ascii.eqb c Spec.LF); intros Ha; [congruence|].
  pose proof (lines_nonempty a) as Hne.
  destruct (Spec.lines a) as [|l ls] eqn:El; [done|].
  assert (l = a /\ ls = []) as [-> ->] by (split; congruence).
  by rewrite (IH b eq_refl Hb).
Qed.

Lemma generateBuildPrompt_firstLine (s : SystemDesign) :
  Spec.lines (name s) = [name s] ->
  Spec.firstLine (generateBuildPrompt s) = Spec.systemTitle (name s).
Proof.
  intros Hname. unfold Spec.firstLine, generateBuildPrompt.
  rewrite lines_template. cbn [map concat].
  rewrite (lines_app_single "# Build a " (name s +:+ "-like System"));
    [reflexivity|reflexivity|].
  by apply lines_app_single.
Qed.

Example acme_firstLine :
  Spec.firstLine (generateBuildPrompt Samples.acme) = "# Build a Acme-like System".
Proof. apply (generateBuildPrompt_firstLine Samples.acme). reflexivity. Qed.

(** The two worked examples of the specification, on the lines of the
    sample prompt. *)
Example acme_scale_and_tradeoff :
  let out := Spec.lines (generateBuildPrompt Samples.acme) in
  out !! 11%nat = Some "## Target Scale" /\
  out !! 12%nat = Some "- Users: 1M" /\
  out !! 34%nat = Some "### X" /\
  out !! 35%nat = Some "**Pros:** a; b" /\
  out !! 36%nat = Some "**Cons:** c" /\
  List.filter (fun l => String.prefix "## " l) out = Spec.systemHeadings.
Proof. vm_compute. split_and!; reflexivity. Qed.

(** C9. Two records that agree on every field but [slug], [tags],
    [highLevelDiagram] and the [diagram] of their deep dives have the same
    prompt. *)
Theorem C9_generateBuildPrompt_ignores_unused_fields (a b : SystemDesign) :
  Spec.sameApartFromUnusedFields a b ->
  generateBuildPrompt a = generateBuildPrompt b.
Proof.
  intros (Hn & Ht & _ & Ho & Hs & Hr & Hc & Hd & Htr & Hdd).
  unfold generateBuildPrompt.
  assert (forall l : list DeepDive,
            map (fun d => "### " +:+ dd_title d +:+ nl +:+ dd_content d) l
            = map (fun p : string * string => "### " +:+ p.1 +:+ nl +:+ p.2)
                (map (fun d => (dd_title d, dd_content d)) l)) as Hpairs.
  { intros l. by rewrite map_map. }
  rewrite !Hpairs, Hdd.
  by rewrite Hn, Ht, Ho, Hs, Hr, Hc, Hd, Htr.
Qed.

Lemma C9_witness :
  Spec.sameApartFromUnusedFields Samples.acme Samples.acmeRetagged /\
  slug Samples.acme <> slug Samples.acmeRetagged /\
  tags Samples.acme <> tags Samples.acmeRetagged /\
  highLevelDiagram Samples.acme <> highLevelDiagram Samples.acmeRetagged /\
  map dd_diagram (deepDive Samples.acme) <> map dd_diagram (deepDive Samples.acmeRetagged) /\
  generateBuildPrompt Samples.acme = generateBuildPrompt Samples.acmeRetagged.
Proof.
  assert (H : Spec.sameApartFromUnusedFields Samples.acme Samples.acmeRetagged).
  { unfold Spec.sameApartFromUnusedFields. repeat split; reflexivity. }
  split; [exact H|].
  split; [discriminate|]. split; [discriminate|]. split; [discriminate|].
  split; [discriminate|].
  exact (C9_generateBuildPrompt_ignores_unused_fields _ _ H).
Defined.

(** ** The document-based generators and the closing blocks *)

Lemma generateBuildPromptFromMdx_layout (e : SystemEntry) :
  generateBuildPromptFromMdx e
  = Spec.systemPromptFromBody (e_name e) (e_tagline e) (nullish (e_body e) "").
Proof.
  unfold generateBuildPromptFromMdx. unfold_spec.
  rewrite !string_app_assoc. reflexivity.
Qed.

Lemma generateBuildPromptFromMdx_block (e : SystemEntry) :
  Spec.instructionsBlock (generateBuildPromptFromMdx e)
  = Some (Spec.instructionsSection Spec.systemDirectives Spec.systemClosing).
Proof.
  unfold generateBuildPromptFromMdx, template, Spec.instructionsBlock. cbn [join].
  find_block.
Qed.

Section GuidePrompts.

Variable toLowerCase : string -> string.

Lemma generateGuidePromptFromMdx_layout (e : GuideEntry) :
  generateGuidePromptFromMdx toLowerCase e
  = Spec.guidePromptFromBody (toLowerCase (ge_title e)) (ge_title e) (ge_tagline e)
      (nullish (ge_body e) "").
Proof.
  unfold generateGuidePromptFromMdx. unfold_spec.
  rewrite !string_app_assoc. reflexivity.
Qed.

Lemma generateGuidePromptFromMdx_block (e : GuideEntry) :
  Spec.instructionsBlock (generateGuidePromptFromMdx toLowerCase e)
  = Some (Spec.instructionsSection Spec.guideDirectives Spec.guideClosing).
Proof.
  unfold generateGuidePromptFromMdx, template, Spec.instructionsBlock. cbn [join].
  find_block.
Qed.

Lemma generateGuidePrompt_block (g : FeatureGuide) :
  Spec.instructionsBlock (generateGuidePrompt toLowerCase g)
  = Some (Spec.instructionsSection Spec.guideDirectives Spec.guideClosing).
Proof.
  unfold generateGuidePrompt, template, Spec.instructionsBlock. cbn [join].
  find_block.
Qed.

End GuidePrompts.

(** What the two closing blocks hold. *)
Lemma systemBlock_content :
  List.filter Spec.isDirective
    (Spec.lines (Spec.instructionsSection Spec.systemDirectives Spec.systemClosing))
  = Spec.systemDirectives /\
  last (List.filter (fun l => negb (String.eqb l ""))
          (Spec.lines (Spec.instructionsSection Spec.systemDirectives Spec.systemClosing)))
  = Some Spec.systemClosing.
Proof. split; vm_compute; reflexivity. Qed.

Lemma guideBlock_content :
  List.filter Spec.isDirective
    (Spec.lines (Spec.instructionsSection Spec.guideDirectives Spec.guideClosing))
  = Spec.guideDirectives /\
  last (List.filter (fun l => negb (String.eqb l ""))
          (Spec.lines (Spec.instructionsSection Spec.guideDirectives Spec.guideClosing)))
  = Some Spec.guideClosing.
Proof. split; vm_compute; reflexivity. Qed.

Lemma directivesOf_block (out : string) (directives : list string) (closing : string) :
  Spec.instructionsBlock out = Some (Spec.instructionsSection directives closing) ->
  Spec.directivesOf out
  = List.filter Spec.isDirective (Spec.lines (Spec.instructionsSection directives closing)).
Proof. intros H. unfold Spec.directivesOf. by rewrite H. Qed.

Lemma closingOf_block (out : string) (directives : list string) (closing : string) :
  Spec.instructionsBlock out = Some (Spec.instructionsSection directives closing) ->
  Spec.closingOf out
  = last (List.filter (fun l => negb (String.eqb l ""))
            (Spec.lines (Spec.instructionsSection directives closing))).
Proof. intros H. unfold Spec.closingOf. by rewrite H. Qed.

(** The layout by cases on the body: a present body stands in the
    reference section as it is, an absent one leaves the section empty. *)
Lemma generateBuildPromptFromMdx_cases (name tagline : string) (body : option string) :
  generateBuildPromptFromMdx (mkSystemEntry name tagline body)
  = Spec.prompt (Spec.systemTitle name)
      (join Spec.blank [Spec.systemParagraph name tagline; Spec.systemGuidance])
      ("## System Design Reference" +:+ nl +:+
       match body with Some text => text | None => "" end)
      (Spec.instructionsSection Spec.systemDirectives Spec.systemClosing).
Proof.
  destruct body as [text|]; unfold generateBuildPromptFromMdx;
    cbn [e_name e_tagline e_body nullish]; unfold_spec;
    rewrite !string_app_assoc; reflexivity.
Qed.

(** The reference of a prompt stands between a line feed and the blank
    line before the second rule. *)
Lemma prompt_reference_occurs (title intro reference closing : string) :
  Spec.occursIn (nl +:+ reference +:+ nl +:+ nl +:+ "---" +:+ nl)
    (Spec.prompt title intro reference closing).
Proof.
  exists (title +:+ Spec.blank +:+ intro +:+ Spec.blank +:+ Spec.rule +:+ nl),
         (nl +:+ closing).
  unfold Spec.prompt, Spec.blank, Spec.rule. cbn [join].
  rewrite !string_app_assoc. reflexivity.
Qed.

(** The generator on an entry with a body of two lines. *)
Example acmeEntry_prompt :
  firstn 13 (Spec.lines (generateBuildPromptFromMdx MoreSamples.acmeEntry))
  = [ "# Build a Acme-like System"; "";
      "You are an expert software architect. I want to build a production-grade application inspired by Acme (Anvils on demand).";
      ""; Spec.systemGuidance; ""; "---"; "";
      "## System Design Reference"; "## Overview"; "Acme ships anvils."; ""; "---" ] /\
  skipn 13 (Spec.lines (generateBuildPromptFromMdx MoreSamples.acmeEntry))
  = "" :: Spec.lines (Spec.instructionsSection Spec.systemDirectives Spec.systemClosing).
Proof. split; vm_compute; reflexivity. Qed.

(** C2. For every entry [e] the document-based system prompt opens with
    the title line, continues with the paragraph naming the system and its
    tagline, holds one [## System Design Reference] section with the body
    as it is (empty when the entry has no body), and closes with a
    [## Instructions] block that is the very block of the legacy generator
    on any record [s]: the same five directives and the same closing
    sentence. *)
Theorem C2_generateBuildPromptFromMdx_layout (e : SystemEntry) (s : SystemDesign) :
  (exists rest,
     generateBuildPromptFromMdx e
     = Spec.systemTitle (e_name e) +:+ nl +:+ nl +:+
       Spec.systemParagraph (e_name e) (e_tagline e) +:+ nl +:+ rest) /\
  generateBuildPromptFromMdx e
  = Spec.prompt (Spec.systemTitle (e_name e))
      (join Spec.blank [Spec.systemParagraph (e_name e) (e_tagline e); Spec.systemGuidance])
      ("## System Design Reference" +:+ nl +:+
       match e_body e with Some body => body | None => "" end)
      (Spec.instructionsSection Spec.systemDirectives Spec.systemClosing) /\
  match e_body e with
  | Some body =>
      Spec.occursIn
        (nl +:+ "## System Design Reference" +:+ nl +:+ body +:+ nl +:+ nl +:+ "---" +:+ nl)
        (generateBuildPromptFromMdx e)
  | None =>
      Spec.occursIn
        (nl +:+ "## System Design Reference" +:+ nl +:+ nl +:+ nl +:+ "---" +:+ nl)
        (generateBuildPromptFromMdx e)
  end /\
  Spec.instructionsBlock (generateBuildPromptFromMdx e)
  = Spec.instructionsBlock (generateBuildPrompt s) /\
  Spec.instructionsBlock (generateBuildPromptFromMdx e)
  = Some (Spec.instructionsSection Spec.systemDirectives Spec.systemClosing) /\
  Spec.directivesOf (generateBuildPromptFromMdx e) = Spec.systemDirectives /\
  Spec.directivesOf (generateBuildPrompt s) = Spec.systemDirectives /\
  length Spec.systemDirectives = 5%nat /\
  Spec.closingOf (generateBuildPromptFromMdx e) = Some Spec.systemClosing /\
  Spec.closingOf (generateBuildPrompt s) = Some Spec.systemClosing.
Proof.
  pose proof (generateBuildPromptFromMdx_block e) as Hm.
  pose proof (generateBuildPrompt_block s) as Hl.
  destruct systemBlock_content as [Hd Hc].
  split_and!.
  - unfold generateBuildPromptFromMdx, template, Spec.systemTitle, Spec.systemParagraph.
    cbn [join]. eexists. rewrite !string_app_assoc. reflexivity.
  - destruct e as [name tagline body]. apply generateBuildPromptFromMdx_cases.
  - destruct e as [name tagline [body|]]; rewrite generateBuildPromptFromMdx_cases;
      cbn [e_body].
    + exact (prompt_reference_occurs _ _ ("## System Design Reference" +:+ nl +:+ body) _).
    + exact (prompt_reference_occurs _ _ ("## System Design Reference" +:+ nl +:+ "") _).
  - by rewrite Hm, Hl.
  - exact Hm.
  - by rewrite (directivesOf_block _ _ _ Hm).
  - by rewrite (directivesOf_block _ _ _ Hl).
  - reflexivity.
  - by rewrite (closingOf_block _ _ _ Hm).
  - by rewrite (closingOf_block _ _ _ Hl).
Qed.

(** C5. Whatever the inputs, the five numbered directives that close a
    guide prompt (legacy or document-based) are not the five that close a
    system prompt: the two lists differ at every position, share no
    directive, and so do the closing blocks as a whole. *)
Theorem C5_guide_and_system_instructions_differ
    (toLowerCase : string -> string)
    (s : SystemDesign) (e : SystemEntry) (g : FeatureGuide) (ge : GuideEntry) :
  Spec.directivesOf (generateBuildPrompt s) = Spec.systemDirectives /\
  Spec.directivesOf (generateBuildPromptFromMdx e) = Spec.systemDirectives /\
  Spec.directivesOf (generateGuidePrompt toLowerCase g) = Spec.guideDirectives /\
  Spec.directivesOf (generateGuidePromptFromMdx toLowerCase ge) = Spec.guideDirectives /\
  length Spec.systemDirectives = 5%nat /\
  length Spec.guideDirectives = 5%nat /\
  Spec.directivesOf (generateGuidePrompt toLowerCase g)
    <> Spec.directivesOf (generateBuildPrompt s) /\
  Spec.directivesOf (generateGuidePromptFromMdx toLowerCase ge)
    <> Spec.directivesOf (generateBuildPromptFromMdx e) /\
  Forall2 (fun a b => a <> b) Spec.guideDirectives Spec.systemDirectives /\
  Forall (fun a => a ∉ Spec.systemDirectives) Spec.guideDirectives /\
  Spec.instructionsBlock (generateGuidePrompt toLowerCase g)
    <> Spec.instructionsBlock (generateBuildPrompt s) /\
  Spec.instructionsBlock (generateGuidePromptFromMdx toLowerCase ge)
    <> Spec.instructionsBlock (generateBuildPromptFromMdx e).
Proof.
  pose proof (generateBuildPromptFromMdx_block e) as Hm.
  pose proof (generateBuildPrompt_block s) as Hl.
  pose proof (generateGuidePrompt_block toLowerCase g) as Hg.
  pose proof (generateGuidePromptFromMdx_block toLowerCase ge) as Hgm.
  destruct systemBlock_content as [Hd _].
  destruct guideBlock_content as [Hgd _].
  assert (Spec.directivesOf (generateBuildPrompt s) = Spec.systemDirectives) as E1
    by (by rewrite (directivesOf_block _ _ _ Hl)).
  assert (Spec.directivesOf (generateBuildPromptFromMdx e) = Spec.systemDirectives) as E2
    by (by rewrite (directivesOf_block _ _ _ Hm)).
  assert (Spec.directivesOf (generateGuidePrompt toLowerCase g) = Spec.guideDirectives) as E3
    by (by rewrite (directivesOf_block _ _ _ Hg)).
  assert (Spec.directivesOf (generateGuidePromptFromMdx toLowerCase ge) = Spec.guideDirectives)
    as E4 by (by rewrite (directivesOf_block _ _ _ Hgm)).
  split_and!; try done.
  - rewrite E3, E1. discriminate.
  - rewrite E4, E2. discriminate.
  - repeat constructor; discriminate.
  - repeat constructor; intros Hin; repeat (apply elem_of_cons in Hin as [Hin|Hin];
      [discriminate|]); by apply elem_of_nil in Hin.
  - rewrite Hg, Hl. discriminate.
  - rewrite Hgm, Hm. discriminate.
Qed.

(** C10. On an entry without body both document-based generators put the
    empty string in its place and return the whole prompt: title line,
    paragraph, an empty reference part, and the full closing block. *)
Theorem C10_absent_body_is_empty_body
    (toLowerCase : string -> string) (name tagline title : string) :
  generateBuildPromptFromMdx (mkSystemEntry name tagline None)
  = generateBuildPromptFromMdx (mkSystemEntry name tagline (Some "")) /\
  generateBuildPromptFromMdx (mkSystemEntry name tagline None)
  = Spec.systemPromptFromBody name tagline "" /\
  Spec.instructionsBlock (generateBuildPromptFromMdx (mkSystemEntry name tagline None))
  = Some (Spec.instructionsSection Spec.systemDirectives Spec.systemClosing) /\
  generateGuidePromptFromMdx toLowerCase (mkGuideEntry title tagline None)
  = generateGuidePromptFromMdx toLowerCase (mkGuideEntry title tagline (Some "")) /\
  generateGuidePromptFromMdx toLowerCase (mkGuideEntry title tagline None)
  = Spec.guidePromptFromBody (toLowerCase title) title tagline "" /\
  Spec.instructionsBlock
    (generateGuidePromptFromMdx toLowerCase (mkGuideEntry title tagline None))
  = Some (Spec.instructionsSection Spec.guideDirectives Spec.guideClosing).
Proof.
  split_and!.
  - reflexivity.
  - apply (generateBuildPromptFromMdx_layout (mkSystemEntry name tagline None)).
  - apply generateBuildPromptFromMdx_block.
  - reflexivity.
  - apply (generateGuidePromptFromMdx_layout toLowerCase (mkGuideEntry title tagline None)).
  - apply generateGuidePromptFromMdx_block.
Qed.

(** ** Roster queries *)

Section FindFilter.

Context {A : Type} (f : A -> bool).

(** [find] returns the first element accepted by the callback. *)
Lemma find_Some_first (l : list A) (r : A) :
  JS.find f l = Some r <->
  exists before after,
    l = before ++ r :: after /\ f r = true /\ Forall (fun x => f x = false) before.
Proof.
  unfold JS.find. split.
  - induction l as [|x l IH]; [done|]. cbn. destruct (f x) eqn:E.
    + intros [= ->]. exists [], l. by split_and!.
    + intros (before & after & -> & Hr & Hb)%IH.
      exists (x :: before), after. split_and!; [done|done|by constructor].
  - intros (before & after & -> & Hr & Hb).
    induction Hb as [|x before Hx _ IH]; cbn; [by rewrite Hr|by rewrite Hx].
Qed.

Lemma find_None_all (l : list A) :
  JS.find f l = None <-> Forall (fun x => f x = false) l.
Proof.
  unfold JS.find. induction l as [|x l IH]; cbn.
  - split; [constructor|done].
  - destruct (f x) eqn:E.
    + split; [done|]. intros H. inversion H; congruence.
    + rewrite IH. split; [by constructor|]. by inversion 1.
Qed.

Lemma filter_elem_of (l : list A) (r : A) :
  r ∈ JS.filter f l <-> r ∈ l /\ f r = true.
Proof. unfold JS.filter. rewrite !list_elem_of_In. apply filter_In. Qed.

Lemma filter_sublist (l : list A) : JS.filter f l `sublist_of` l.
Proof.
  unfold JS.filter. induction l as [|x l IH]; cbn; [constructor|].
  destruct (f x); by constructor.
Qed.

Lemma filter_Forall (l : list A) : Forall (fun x => f x = true) (JS.filter f l).
Proof.
  apply Forall_forall. intros x Hx. by apply filter_elem_of in Hx as [_ ?].
Qed.

(** Every selection of accepted elements of [l], taken in order, is
    inside the filtered list: nothing accepted is left out. *)
Lemma filter_greatest (l k : list A) :
  k `sublist_of` l -> Forall (fun x => f x = true) k -> k `sublist_of` JS.filter f l.
Proof.
  unfold JS.filter.
  induction 1 as [|x k l _ IH|x k l _ IH]; intros Hk; cbn.
  - constructor.
  - inversion Hk as [|? ? Hx Hk']; subst. rewrite Hx. constructor. by apply IH.
  - destruct (f x); [constructor|]; by apply IH.
Qed.

Lemma filter_nil_all (l : list A) :
  JS.filter f l = [] <-> Forall (fun x => f x = false) l.
Proof.
  unfold JS.filter. induction l as [|x l IH]; cbn.
  - split; [constructor|done].
  - destruct (f x) eqn:E.
    + split; [done|]. intros H. inversion H; congruence.
    + rewrite IH. split; [by constructor|]. by inversion 1.
Qed.

End FindFilter.

Lemma slug_eqb_false (a b : string) : String.eqb a b = false <-> a <> b.
Proof. apply String.eqb_neq. Qed.

Lemma Category_key_inj (a b : Category) : Category_key a = Category_key b -> a = b.
Proof. destruct a, b; (reflexivity || discriminate). Qed.

Lemma GuideCategory_key_inj (a b : GuideCategory) :
  GuideCategory_key a = GuideCategory_key b -> a = b.
Proof. destruct a, b; (reflexivity || discriminate). Qed.

Lemma Category_strict_eq_true (a b : Category) : Category_strict_eq a b = true <-> a = b.
Proof.
  unfold Category_strict_eq. rewrite String.eqb_eq.
  split; [apply Category_key_inj|by intros ->].
Qed.

Lemma GuideCategory_strict_eq_true (a b : GuideCategory) :
  GuideCategory_strict_eq a b = true <-> a = b.
Proof.
  unfold GuideCategory_strict_eq. rewrite String.eqb_eq.
  split; [apply GuideCategory_key_inj|by intros ->].
Qed.

Lemma Category_strict_eq_false (a b : Category) : Category_strict_eq a b = false <-> a <> b.
Proof.
  rewrite <- Category_strict_eq_true. destruct (Category_strict_eq a b); split; congruence.
Qed.

Lemma GuideCategory_strict_eq_false (a b : GuideCategory) :
  GuideCategory_strict_eq a b = false <-> a <> b.
Proof.
  rewrite <- GuideCategory_strict_eq_true.
  destruct (GuideCategory_strict_eq a b); split; congruence.
Qed.

Lemma Forall_iff_pointwise {A} (P Q : A -> Prop) (l : list A) :
  (forall x, P x <-> Q x) -> Forall P l <-> Forall Q l.
Proof. intros H. rewrite !Forall_forall. by setoid_rewrite H. Qed.

(** C6. [getSystemBySlug] and [getGuideBySlug] return a record exactly
    when it is the first of the roster whose slug is the argument, and
    return the absent value exactly when no record has that slug; of two
    records with one slug the earlier is returned. *)
Theorem C6_getBySlug_first_match
    (systems : list SystemDesign) (guides : list FeatureGuide) (key : string) :
  (forall r,
     Index.getSystemBySlug systems key = Some r <->
     exists before after,
       systems = before ++ r :: after /\ slug r = key /\
       Forall (fun x => slug x <> key) before) /\
  (Index.getSystemBySlug systems key = None <->
   Forall (fun x => slug x <> key) systems) /\
  (forall before r1 between r2 after,
     systems = before ++ r1 :: between ++ r2 :: after ->
     Forall (fun x => slug x <> key) before ->
     slug r1 = key -> slug r2 = key ->
     Index.getSystemBySlug systems key = Some r1) /\
  (forall r,
     GuidesIndex.getGuideBySlug guides key = Some r <->
     exists before after,
       guides = before ++ r :: after /\ g_slug r = key /\
       Forall (fun x => g_slug x <> key) before) /\
  (GuidesIndex.getGuideBySlug guides key = None <->
   Forall (fun x => g_slug x <> key) guides) /\
  (forall before r1 between r2 after,
     guides = before ++ r1 :: between ++ r2 :: after ->
     Forall (fun x => g_slug x <> key) before ->
     g_slug r1 = key -> g_slug r2 = key ->
     GuidesIndex.getGuideBySlug guides key = Some r1).
Proof.
  assert (forall r,
     Index.getSystemBySlug systems key = Some r <->
     exists before after,
       systems = before ++ r :: after /\ slug r = key /\
       Forall (fun x => slug x <> key) before) as Hs.
  { intros r. unfold Index.getSystemBySlug. rewrite find_Some_first.
    setoid_rewrite String.eqb_eq.
    by setoid_rewrite (Forall_iff_pointwise _ (fun x => slug x <> key) _
                         (fun x => slug_eqb_false (slug x) key)). }
  assert (forall r,
     GuidesIndex.getGuideBySlug guides key = Some r <->
     exists before after,
       guides = before ++ r :: after /\ g_slug r = key /\
       Forall (fun x => g_slug x <> key) before) as Hg.
  { intros r. unfold GuidesIndex.getGuideBySlug. rewrite find_Some_first.
    setoid_rewrite String.eqb_eq.
    by setoid_rewrite (Forall_iff_pointwise _ (fun x => g_slug x <> key) _
                         (fun x => slug_eqb_false (g_slug x) key)). }
  split_and!.
  - exact Hs.
  - unfold Index.getSystemBySlug. rewrite find_None_all.
    apply Forall_iff_pointwise. intros x. apply slug_eqb_false.
  - intros before r1 between r2 after -> Hb H1 _. apply Hs. by exists before, (between ++ r2 :: after).
  - exact Hg.
  - unfold GuidesIndex.getGuideBySlug. rewrite find_None_all.
    apply Forall_iff_pointwise. intros x. apply slug_eqb_false.
  - intros before r1 between r2 after -> Hb H1 _. apply Hg. by exists before, (between ++ r2 :: after).
Qed.

Lemma C6_witness :
  Index.getSystemBySlug Samples.roster "acme" = Some Samples.acme /\
  Index.getSystemBySlug Samples.roster "gmail" = None /\
  GuidesIndex.getGuideBySlug Samples.guideRoster "webhooks" = Some Samples.webhooksGuide /\
  GuidesIndex.getGuideBySlug Samples.guideRoster "acme" = None.
Proof.
  destruct (C6_getBySlug_first_match Samples.roster Samples.guideRoster "acme")
    as (_ & _ & Hshadow & _ & Hnone & _).
  split.
  { apply (Hshadow [Samples.acmeRetagged] Samples.acme [] Samples.acmeShadow []);
      [reflexivity| |reflexivity|reflexivity].
    constructor; [discriminate|constructor]. }
  split; [reflexivity|]. split; [reflexivity|].
  apply Hnone. repeat constructor; discriminate.
Defined.

(** C7. For every category, [getSystemsByCategory] and
    [getGuidesByCategory] return the records of the roster with that
    category and no other: the result is taken from the roster in roster
    order, holds only records of the category, leaves none of them out,
    and is empty exactly when the roster has no record of the category. *)
Theorem C7_getByCategory_exact
    (systems : list SystemDesign) (guides : list FeatureGuide)
    (c : Category) (gc : GuideCategory) :
  (forall r, r ∈ Index.getSystemsByCategory systems c <-> r ∈ systems /\ category r = c) /\
  Index.getSystemsByCategory systems c `sublist_of` systems /\
  (forall k, k `sublist_of` systems -> Forall (fun r => category r = c) k ->
             k `sublist_of` Index.getSystemsByCategory systems c) /\
  (Index.getSystemsByCategory systems c = [] <->
   Forall (fun r => category r <> c) systems) /\
  (forall g, g ∈ GuidesIndex.getGuidesByCategory guides gc <->
             g ∈ guides /\ g_category g = gc) /\
  GuidesIndex.getGuidesByCategory guides gc `sublist_of` guides /\
  (forall k, k `sublist_of` guides -> Forall (fun g => g_category g = gc) k ->
             k `sublist_of` GuidesIndex.getGuidesByCategory guides gc) /\
  (GuidesIndex.getGuidesByCategory guides gc = [] <->
   Forall (fun g => g_category g <> gc) guides).
Proof.
  unfold Index.getSystemsByCategory, GuidesIndex.getGuidesByCategory.
  split_and!.
  - intros r. rewrite filter_elem_of. by rewrite Category_strict_eq_true.
  - apply filter_sublist.
  - intros k Hk Hc. apply filter_greatest; [done|].
    eapply Forall_iff_pointwise; [|exact Hc].
    intros x. apply Category_strict_eq_true.
  - rewrite filter_nil_all. apply Forall_iff_pointwise.
    intros x. apply Category_strict_eq_false.
  - intros g. rewrite filter_elem_of. by rewrite GuideCategory_strict_eq_true.
  - apply filter_sublist.
  - intros k Hk Hc. apply filter_greatest; [done|].
    eapply Forall_iff_pointwise; [|exact Hc].
    intros x. apply GuideCategory_strict_eq_true.
  - rewrite filter_nil_all. apply Forall_iff_pointwise.
    intros x. apply GuideCategory_strict_eq_false.
Qed.

Lemma C7_witness :
  Index.getSystemsByCategory Samples.roster commerce = [Samples.acmeRetagged; Samples.acme] /\
  [Samples.acmeRetagged; Samples.acme]
    `sublist_of` Index.getSystemsByCategory Samples.roster commerce /\
  Index.getSystemsByCategory Samples.roster infra = [] /\
  GuidesIndex.getGuidesByCategory Samples.guideRoster reliability = [Samples.webhooksGuide] /\
  GuidesIndex.getGuidesByCategory Samples.guideRoster media = [].
Proof.
  destruct (C7_getByCategory_exact Samples.roster Samples.guideRoster commerce media)
    as (_ & _ & Hgreatest & _ & _ & _ & _ & Hnone).
  split; [reflexivity|].
  split.
  { apply Hgreatest; [|repeat constructor].
    apply sublist_skip, sublist_skip, sublist_nil_l. }
  split; [reflexivity|]. split; [reflexivity|].
  apply Hnone. repeat constructor; discriminate.
Defined.

(** ** Tags *)

Section SetSpread.

Context {A : Type} `{EqDecision A}.

Lemma Set_add_all_elem_of (seen l : list A) (x : A) :
  x ∈ Set_add_all seen l <-> x ∈ seen \/ x ∈ l.
Proof.
  revert seen. induction l as [|y l IH]; intros seen; cbn.
  - rewrite elem_of_nil. tauto.
  - destruct (decide (y ∈ seen)) as [Hy|Hy]; rewrite IH.
    + rewrite (elem_of_cons l). split; [tauto|]. intros [?|[->|?]]; tauto.
    + rewrite elem_of_app, list_elem_of_singleton, (elem_of_cons l). tauto.
Qed.

Lemma Set_add_all_NoDup (seen l : list A) :
  NoDup seen -> NoDup (Set_add_all seen l).
Proof.
  revert seen. induction l as [|y l IH]; intros seen Hs; cbn; [done|].
  destruct (decide (y ∈ seen)) as [Hy|Hy]; apply IH; [done|].
  apply NoDup_app. split_and!; [done| |apply NoDup_singleton].
  intros x Hx ->%list_elem_of_singleton. done.
Qed.

(** A [Set] lists every value of the array once. *)
Lemma Set_spread_elem_of (l : list A) (x : A) : x ∈ Set_spread l <-> x ∈ l.
Proof. unfold Set_spread. rewrite Set_add_all_elem_of, elem_of_nil. tauto. Qed.

Lemma Set_spread_NoDup (l : list A) : NoDup (Set_spread l).
Proof. apply Set_add_all_NoDup, NoDup_nil_2. Qed.

End SetSpread.

Lemma sort_elem_of (l : list string) (x : string) : x ∈ JS.sort l <-> x ∈ l.
Proof. unfold JS.sort. by rewrite merge_sort_Permutation. Qed.

Lemma sort_NoDup (l : list string) : NoDup l -> NoDup (JS.sort l).
Proof. unfold JS.sort. by rewrite merge_sort_Permutation. Qed.

(** The comparison of [sort] is a total order. *)

Lemma lex_compare_refl (a : list N) : JS.lex_compare a a = Eq.
Proof. induction a as [|x a IH]; [done|]. cbn. by rewrite N.compare_refl. Qed.

Lemma lex_compare_eq (a b : list N) : JS.lex_compare a b = Eq -> a = b.
Proof.
  revert b. induction a as [|x a IH]; intros [|y b]; cbn; try done.
  destruct (N.compare x y) eqn:E; try done.
  apply N.compare_eq in E as ->. by intros ->%IH.
Qed.

Lemma lex_compare_antisym (a b : list N) :
  JS.lex_compare b a = CompOpp (JS.lex_compare a b).
Proof.
  revert b. induction a as [|x a IH]; intros [|y b]; cbn; try done.
  rewrite (N.compare_antisym x y). destruct (N.compare x y); cbn; [apply IH|done..].
Qed.

Lemma lex_compare_lt_trans (a b c : list N) :
  JS.lex_compare a b = Lt -> JS.lex_compare b c = Lt -> JS.lex_compare a c = Lt.
Proof.
  revert b c. induction a as [|x a IH]; intros [|y b] [|z c]; cbn; try done.
  destruct (N.compare x y) eqn:Exy; try done.
  - apply N.compare_eq in Exy as ->.
    destruct (N.compare y z); try done. apply IH.
  - intros _. destruct (N.compare y z) eqn:Eyz; try done.
    + apply N.compare_eq in Eyz as <-. by rewrite Exy.
    + intros _. apply N.compare_lt_iff in Exy, Eyz.
      assert (x < z)%N as ->%N.compare_lt_iff by (by etrans). done.
Qed.

Lemma bytes_inj (s t : string) : JS.bytes s = JS.bytes t -> s = t.
Proof.
  revert t. induction s as [|a s IH]; intros [|b t]; cbn; try done.
  intros [= Hab Hst]. f_equal; [|by apply IH].
  rewrite <- (ascii_N_embedding a), <- (ascii_N_embedding b). by rewrite Hab.
Qed.

Lemma JS_compare_eq (s t : string) : JS.compare s t = Eq -> s = t.
Proof.
  unfold JS.compare. destruct (JS.lex_compare (JS.codeUnits s) (JS.codeUnits t)); try done.
  intros H. by apply bytes_inj, lex_compare_eq.
Qed.

Lemma JS_compare_antisym (s t : string) : JS.compare t s = CompOpp (JS.compare s t).
Proof.
  unfold JS.compare.
  rewrite (lex_compare_antisym (JS.codeUnits s) (JS.codeUnits t)).
  destruct (JS.lex_compare (JS.codeUnits s) (JS.codeUnits t)); cbn; [|done..].
  apply lex_compare_antisym.
Qed.

Lemma JS_compare_lt_trans (s t u : string) :
  JS.compare s t = Lt -> JS.compare t u = Lt -> JS.compare s u = Lt.
Proof.
  unfold JS.compare.
  destruct (JS.lex_compare (JS.codeUnits s) (JS.codeUnits t)) eqn:Est; try done.
  - apply lex_compare_eq in Est. rewrite Est.
    destruct (JS.lex_compare (JS.codeUnits t) (JS.codeUnits u)); try done.
    apply lex_compare_lt_trans.
  - intros _. destruct (JS.lex_compare (JS.codeUnits t) (JS.codeUnits u)) eqn:Etu; try done.
    + apply lex_compare_eq in Etu. by rewrite <- Etu, Est.
    + by rewrite (lex_compare_lt_trans _ _ _ Est Etu).
Qed.

#[global] Instance JS_le_total : Total JS.le.
Proof.
  intros s t. unfold JS.le, JS.leb. rewrite (JS_compare_antisym s t).
  destruct (JS.compare s t); cbn; auto.
Qed.

#[global] Instance JS_le_antisymm : AntiSymm (=) JS.le.
Proof.
  intros s t. unfold JS.le, JS.leb. rewrite (JS_compare_antisym s t).
  destruct (JS.compare s t) eqn:E; cbn; try done.
  intros _ _. by apply JS_compare_eq.
Qed.

#[global] Instance JS_le_trans : Transitive JS.le.
Proof.
  intros s t u. unfold JS.le, JS.leb.
  destruct (JS.compare s t) eqn:Est; try done.
  - by apply JS_compare_eq in Est as ->.
  - intros _. destruct (JS.compare t u) eqn:Etu; try done.
    + apply JS_compare_eq in Etu as <-. by rewrite Est.
    + by rewrite (JS_compare_lt_trans _ _ _ Est Etu).
Qed.

(** What comes first in the order has the code units that come first. *)
Lemma JS_le_codeUnits (s t : string) :
  JS.le s t -> JS.lex_compare (JS.codeUnits s) (JS.codeUnits t) <> Gt.
Proof.
  unfold JS.le, JS.leb, JS.compare.
  by destruct (JS.lex_compare (JS.codeUnits s) (JS.codeUnits t)).
Qed.

(** On text without a byte above 127 the code units are the bytes. *)
Lemma codeUnits_ascii (s : string) :
  Forall (fun b => (b < 128)%N) (JS.bytes s) -> JS.codeUnits s = JS.bytes s.
Proof.
  induction s as [|a s IH]; [done|]. cbn [JS.bytes].
  intros [Ha Hs]%Forall_cons. cbn [JS.codeUnits].
  apply N.ltb_lt in Ha. rewrite Ha. by rewrite IH.
Qed.

Lemma sort_Sorted (l : list string) : StronglySorted JS.le (JS.sort l).
Proof. apply (StronglySorted_merge_sort JS.le). Qed.

Lemma StronglySorted_weaken {A} (R R' : relation A) (l : list A) :
  (forall x y, R x y -> R' x y) -> StronglySorted R l -> StronglySorted R' l.
Proof.
  intros HR. induction 1 as [|x l Hl IH Hx]; constructor; [done|].
  eapply Forall_impl; [exact Hx|]. intros y. apply HR.
Qed.

Lemma sort_Sorted_codeUnits (l : list string) :
  StronglySorted (fun a b => JS.lex_compare (JS.codeUnits a) (JS.codeUnits b) <> Gt)
    (JS.sort l).
Proof. eapply StronglySorted_weaken; [apply JS_le_codeUnits|apply sort_Sorted]. Qed.

Lemma flatMap_elem_of {A B} (f : A -> list B) (l : list A) (y : B) :
  y ∈ flatMap f l <-> exists x, x ∈ l /\ y ∈ f x.
Proof.
  unfold flatMap. rewrite list_elem_of_In, in_flat_map.
  by setoid_rewrite list_elem_of_In.
Qed.

(** Ascending with no repetition: each element is below the later ones
    and differs from them. *)
Lemma sorted_strict (l : list string) :
  StronglySorted JS.le l -> NoDup l ->
  StronglySorted (fun a b => JS.le a b /\ a <> b) l.
Proof.
  induction 1 as [|x l Hl IH Hx]; intros Hnd; [constructor|].
  apply NoDup_cons in Hnd as [Hnot Hnd].
  constructor; [by apply IH|].
  apply Forall_forall. intros y Hy. split.
  - by eapply Forall_forall in Hx.
  - by intros ->.
Qed.

(** C8. [getAllTags] and [getAllGuideTags] list every tag of every
    record of the roster (and nothing else), without repetition, in
    ascending lexicographic order: the order of [sort], in which every
    tag has code units that do not come after those of a later tag, and
    differs from it. *)
Theorem C8_getAllTags_sorted_set
    (systems : list SystemDesign) (guides : list FeatureGuide) :
  (forall t, t ∈ Index.getAllTags systems <-> exists r, r ∈ systems /\ t ∈ tags r) /\
  NoDup (Index.getAllTags systems) /\
  StronglySorted JS.le (Index.getAllTags systems) /\
  StronglySorted (fun a b => JS.lex_compare (JS.codeUnits a) (JS.codeUnits b) <> Gt)
    (Index.getAllTags systems) /\
  StronglySorted (fun a b => JS.le a b /\ a <> b) (Index.getAllTags systems) /\
  (forall t, t ∈ GuidesIndex.getAllGuideTags guides <->
             exists g, g ∈ guides /\ t ∈ g_tags g) /\
  NoDup (GuidesIndex.getAllGuideTags guides) /\
  StronglySorted JS.le (GuidesIndex.getAllGuideTags guides) /\
  StronglySorted (fun a b => JS.lex_compare (JS.codeUnits a) (JS.codeUnits b) <> Gt)
    (GuidesIndex.getAllGuideTags guides) /\
  StronglySorted (fun a b => JS.le a b /\ a <> b) (GuidesIndex.getAllGuideTags guides).
Proof.
  unfold Index.getAllTags, GuidesIndex.getAllGuideTags.
  split_and!.
  - intros t. by rewrite sort_elem_of, Set_spread_elem_of, flatMap_elem_of.
  - apply sort_NoDup, Set_spread_NoDup.
  - apply sort_Sorted.
  - apply sort_Sorted_codeUnits.
  - apply sorted_strict; [apply sort_Sorted|apply sort_NoDup, Set_spread_NoDup].
  - intros t. by rewrite sort_elem_of, Set_spread_elem_of, flatMap_elem_of.
  - apply sort_NoDup, Set_spread_NoDup.
  - apply sort_Sorted.
  - apply sort_Sorted_codeUnits.
  - apply sorted_strict; [apply sort_Sorted|apply sort_NoDup, Set_spread_NoDup].
Qed.

(** Outside ASCII the order is that of the code units, not of the bytes:
    U+1F600, the surrogates D83D DE00, comes before U+FF5E, whose bytes
    come first. *)
Example getAllTags_code_units :
  JS.codeUnits "😀" = [55357; 56832]%N /\
  JS.codeUnits "～" = [65374]%N /\
  JS.lex_compare (JS.bytes "～") (JS.bytes "😀") = Lt /\
  Index.getAllTags [MoreSamples.unicodeTags] = ["z"; "😀"; "～"] /\
  JS.codeUnits "5. **Plan for scale** — identify" 
  = JS.bytes "5. **Plan for scale** " ++ [8212%N] ++ JS.bytes " identify".
Proof. split_and!; vm_compute; reflexivity. Qed.

(** The example of the specification: [real-time] twice and [caching]
    across records come out as [caching], [real-time]. *)
Example getAllTags_example :
  Index.getAllTags [Samples.acmeRetagged; Samples.acmeShadow] = ["caching"; "real-time"] /\
  Index.getAllTags Samples.roster = ["caching"; "delivery"; "real-time"] /\
  GuidesIndex.getAllGuideTags Samples.guideRoster
  = ["HTTP"; "real-time"; "retry"; "streaming"; "webhooks"].
Proof. split_and!; vm_compute; reflexivity. Qed.

Lemma C8_witness :
  "caching" ∈ Index.getAllTags Samples.roster /\
  "HTTP" ∈ GuidesIndex.getAllGuideTags Samples.guideRoster.
Proof.
  destruct (C8_getAllTags_sorted_set Samples.roster Samples.guideRoster)
    as (Hs & _ & _ & _ & _ & Hg & _).
  split.
  - apply Hs. exists Samples.acme. split.
    + apply list_elem_of_further, list_elem_of_here.
    + apply list_elem_of_further, list_elem_of_here.
  - apply Hg. exists Samples.sseGuide. split.
    + apply list_elem_of_here.
    + apply list_elem_of_further, list_elem_of_further, list_elem_of_here.
Defined.

(** ** Category tables *)

(** The tables of [src/lib/categories.ts] cover the whole union. *)
Lemma Categories_cover (c : Category) :
  is_Some (Categories.categoryLabels !! Category_key c) /\
  is_Some (Categories.categoryColors !! Category_key c).
Proof. destruct c; split; vm_compute; eauto. Qed.

Lemma Categories_productivity :
  Categories.categoryLabels !! Category_key productivity = Some "Productivity" /\
  Categories.categoryColors !! Category_key productivity = Some "bg-cat-productivity".
Proof. split; vm_compute; reflexivity. Qed.

(** The first revision of [src/data/types.ts] holds the first seven
    categories, the members of its own union, and not the four later
    ones. *)
Lemma TypesFirstRevision_domain (c : Category) :
  (TypesFirstRevision.categoryLabels !! Category_key c = None <->
   c = video \/ c = devtools \/ c = ai \/ c = productivity) /\
  (TypesFirstRevision.categoryColors !! Category_key c = None <->
   c = video \/ c = devtools \/ c = ai \/ c = productivity).
Proof.
  destruct c; split; vm_compute; split;
    solve [ discriminate | intros [H|[H|[H|H]]]; discriminate H | tauto ].
Qed.

Lemma Types_cover (c : Category) :
  is_Some (Types.categoryLabels !! Category_key c) /\
  is_Some (Types.categoryColors !! Category_key c).
Proof. destruct c; split; vm_compute; eauto. Qed.

(** C3. Whatever records the legacy roster holds, the tables
    [categoryLabels] and [categoryColors] of [src/data/types.ts] have an
    entry for the category of each of them, since they have one for every
    member of the category union; the Google Drive record has the category
    [productivity], which resolves to the label [Productivity] and to the
    colour token [bg-cat-productivity]. *)
Theorem C3_roster_categories_have_label_and_color
    (systems : list SystemDesign)
    (overview_ : string) (scale_ : list (string * string))
    (requirements_ : Requirements) (highLevelDiagram_ : string)
    (components_ : list Component) (dataModel_ : string)
    (deepDive_ : list DeepDive) (tradeoffs_ : list Tradeoff) :
  Forall (fun r => is_Some (Types.categoryLabels !! Category_key (category r)) /\
                   is_Some (Types.categoryColors !! Category_key (category r)))
         systems /\
  (forall c : Category,
     is_Some (Types.categoryLabels !! Category_key c) /\
     is_Some (Types.categoryColors !! Category_key c)) /\
  category (googleDrive overview_ scale_ requirements_ highLevelDiagram_
              components_ dataModel_ deepDive_ tradeoffs_) = productivity /\
  Types.categoryLabels
    !! Category_key (category (googleDrive overview_ scale_ requirements_
                                 highLevelDiagram_ components_ dataModel_
                                 deepDive_ tradeoffs_)) = Some "Productivity" /\
  Types.categoryColors
    !! Category_key (category (googleDrive overview_ scale_ requirements_
                                 highLevelDiagram_ components_ dataModel_
                                 deepDive_ tradeoffs_)) = Some "bg-cat-productivity".
Proof.
  split_and!.
  - apply Forall_forall. intros r _. apply Types_cover.
  - apply Types_cover.
  - reflexivity.
  - vm_compute. reflexivity.
  - vm_compute. reflexivity.
Qed.

(** ** The preview card *)

(** On the card of the Google Drive record the badge has the fallback
    colour and the label of the category. *)
Example googleDrive_card
    (overview_ : string) (scale_ : list (string * string))
    (requirements_ : Requirements) (highLevelDiagram_ : string)
    (components_ : list Component) (dataModel_ : string)
    (deepDive_ : list DeepDive) (tradeoffs_ : list Tradeoff) :
  OgImage.backgroundColor_at OgImage.categoryBadge
    (OgImage.card (googleDrive overview_ scale_ requirements_ highLevelDiagram_
                     components_ dataModel_ deepDive_ tradeoffs_))
  = Some (OgImage.Str "#6b4c3b") /\
  OgImage.text_at OgImage.categoryBadge
    (OgImage.card (googleDrive overview_ scale_ requirements_ highLevelDiagram_
                     components_ dataModel_ deepDive_ tradeoffs_))
  = Some (Some "Productivity").
Proof. split; vm_compute; reflexivity. Qed.

(** C4. The colour table of the system card has seven entries; a
    category is absent from it exactly when it is one of video, devtools,
    ai, productivity.  For a system of an absent category the colour, and
    with it the background of the accent bar and of the category badge, is
    the constant [#6b4c3b]; for a system of a listed category it is the
    entry of the table. *)
Theorem C4_og_color_fallback (s : SystemDesign) :
  size OgImage.categoryColor = 7%nat /\
  (OgImage.categoryColor !! Category_key (category s) = None <->
   category s = video \/ category s = devtools \/ category s = ai \/
   category s = productivity) /\
  match OgImage.categoryColor !! Category_key (category s) with
  | None =>
      OgImage.color s = "#6b4c3b" /\
      OgImage.backgroundColor_at OgImage.accentBar (OgImage.card s)
      = Some (OgImage.Str "#6b4c3b") /\
      OgImage.backgroundColor_at OgImage.categoryBadge (OgImage.card s)
      = Some (OgImage.Str "#6b4c3b")
  | Some entry =>
      OgImage.color s = entry /\
      OgImage.backgroundColor_at OgImage.accentBar (OgImage.card s)
      = Some (OgImage.Str entry) /\
      OgImage.backgroundColor_at OgImage.categoryBadge (OgImage.card s)
      = Some (OgImage.Str entry)
  end.
Proof.
  split; [vm_compute; reflexivity|].
  destruct s as [sl nm tg c tgs ov sc rq hl cs dm dd tr]. cbn [category].
  split.
  - destruct c; vm_compute; split;
      solve [ discriminate | intros [H|[H|[H|H]]]; discriminate H | tauto ].
  - destruct c; vm_compute; split_and!; reflexivity.
Qed.

Example og_color_examples :
  OgImage.color Samples.acme = "#4e342e" /\
  OgImage.color Samples.acmeShadow = "#2d6a4f".
Proof. split; vm_compute; reflexivity. Qed.

(** * Further properties *)

(** ** The legacy guide prompt *)

Lemma string_app_cancel_l (a b c : string) : a +:+ b = a +:+ c -> b = c.
Proof. apply String.app_inj. Qed.

Lemma string_length_app (a b : string) :
  String.length (a +:+ b) = (String.length a + String.length b)%nat.
Proof.
  induction a as [|x a IH]; [done|].
  change (S (String.length (a +:+ b)) = S (String.length a + String.length b)).
  by rewrite IH.
Qed.

Lemma string_app_cancel_r (a b c : string) : a +:+ c = b +:+ c -> a = b.
Proof.
  revert b. induction a as [|x a IH]; intros [|y b] H.
  - done.
  - apply (f_equal String.length) in H.
    change (String.length c = S (String.length (b +:+ c))) in H.
    rewrite string_length_app in H. lia.
  - apply (f_equal String.length) in H.
    change (S (String.length (a +:+ c)) = String.length c) in H.
    rewrite string_length_app in H. lia.
  - change (String x (a +:+ c) = String y (b +:+ c)) in H.
    injection H as -> H. by rewrite (IH b H).
Qed.

Section GuideProperties.

Variable toLowerCase : string -> string.

(** X1. Whatever a guide holds, its legacy prompt opens with the line
    [# How to Build: {title}], and the headings Problem, Architectural
    Approaches, Key Components, Data Model, Deep Dives, Real-World
    Examples, Tradeoffs and Instructions are whole lines of it, in this
    order. *)
Theorem X1_generateGuidePrompt_headings (g : FeatureGuide) :
  (exists rest,
     generateGuidePrompt toLowerCase g = Spec.guideTitle (g_title g) +:+ nl +:+ rest) /\
  GuideSpec.guideHeadings `sublist_of` Spec.lines (generateGuidePrompt toLowerCase g).
Proof.
  split.
  - unfold generateGuidePrompt, template, Spec.guideTitle. cbn [join]. eauto.
  - unfold generateGuidePrompt. rewrite lines_template.
    apply sublist_lines; [unfold GuideSpec.guideHeadings; solve_sublist|].
    repeat constructor.
Qed.

(** X2. The approach at position [i] of a guide, counted from zero, is
    rendered under the heading [### Approach {i+1}: {name}], followed by
    its description, its Pros line and its Cons line; every component,
    deep dive, example and trade-off is rendered in its lines too. *)
Theorem X2_generateGuidePrompt_items (g : FeatureGuide) :
  (forall i a, g_approaches g !! i = Some a ->
     Spec.occursIn
       (nl +:+ ("### Approach " +:+ pretty (i + 1)%nat +:+ ": " +:+ ap_name a +:+ nl +:+
                ap_description a +:+ nl +:+
                "**Pros:** " +:+ join "; " (ap_pros a) +:+ nl +:+
                "**Cons:** " +:+ join "; " (ap_cons a)) +:+ nl)
       (generateGuidePrompt toLowerCase g)) /\
  (forall c, c ∈ g_components g ->
     Spec.occursIn (nl +:+ ("### " +:+ comp_name c +:+ nl +:+ comp_description c) +:+ nl)
       (generateGuidePrompt toLowerCase g)) /\
  (forall d, d ∈ g_deepDive g ->
     Spec.occursIn (nl +:+ ("### " +:+ dd_title d +:+ nl +:+ dd_content d) +:+ nl)
       (generateGuidePrompt toLowerCase g)) /\
  (forall e, e ∈ g_realWorldExamples g ->
     Spec.occursIn (nl +:+ ("- **" +:+ ex_system e +:+ "**: " +:+ ex_approach e) +:+ nl)
       (generateGuidePrompt toLowerCase g)) /\
  (forall t, t ∈ g_tradeoffs g ->
     Spec.occursIn
       (nl +:+ ("### " +:+ decision t +:+ nl +:+
                "**Pros:** " +:+ join "; " (pros t) +:+ nl +:+
                "**Cons:** " +:+ join "; " (cons t)) +:+ nl)
       (generateGuidePrompt toLowerCase g)).
Proof.
  split_and!.
  - intros i a Hi. unfold generateGuidePrompt, template. cbn [join].
    repeat first
      [ solve [ apply occursIn_here; apply (occursIn_join (nl +:+ nl) nl nl); [done..|];
                exact (elem_of_lookup_imap_2 _ _ _ _ Hi) ]
      | apply occursIn_app_r ].
  - intros c Hc. unfold generateGuidePrompt, template. cbn [join].
    find_piece (nl +:+ nl) nl nl c.
  - intros d Hd. unfold generateGuidePrompt, template. cbn [join].
    find_piece (nl +:+ nl) nl nl d.
  - intros e He. unfold generateGuidePrompt, template. cbn [join].
    find_piece nl "" "" e.
  - intros t Ht. unfold generateGuidePrompt, template. cbn [join].
    find_piece (nl +:+ nl) nl nl t.
Qed.

End GuideProperties.

Lemma X2_witness :
  Spec.occursIn
    (nl +:+ ("### Approach 2: Write-through" +:+ nl +:+
             "Writes go through the cache." +:+ nl +:+
             "**Pros:** fresh; consistent" +:+ nl +:+
             "**Cons:** ") +:+ nl)
    (generateGuidePrompt (fun t => t) MoreSamples.cachingGuide).
Proof.
  exact (proj1 (X2_generateGuidePrompt_items (fun t => t) MoreSamples.cachingGuide)
           1%nat (mkApproach "Write-through" "Writes go through the cache."
                    ["fresh"; "consistent"] []) eq_refl).
Defined.

(** X3. Two guides that agree on every field but [slug], [category],
    [tags], [architectureDiagram] and the [diagram] of their deep dives
    have the same legacy prompt. *)
Theorem X3_generateGuidePrompt_ignores_unused_fields
    (toLowerCase : string -> string) (a b : FeatureGuide) :
  GuideSpec.sameApartFromUnusedFields a b ->
  generateGuidePrompt toLowerCase a = generateGuidePrompt toLowerCase b.
Proof.
  intros (Ht & Hg & Hp & Ha & Hc & Hd & He & Htr & Hdd).
  unfold generateGuidePrompt.
  assert (forall l : list DeepDive,
            map (fun d => "### " +:+ dd_title d +:+ nl +:+ dd_content d) l
            = map (fun p : string * string => "### " +:+ p.1 +:+ nl +:+ p.2)
                (map (fun d => (dd_title d, dd_content d)) l)) as Hpairs.
  { intros l. by rewrite map_map. }
  rewrite !Hpairs, Hdd.
  by rewrite Ht, Hg, Hp, Ha, Hc, Hd, He, Htr.
Qed.

Lemma X3_witness :
  GuideSpec.sameApartFromUnusedFields MoreSamples.cachingGuide MoreSamples.cachingGuideMoved /\
  g_slug MoreSamples.cachingGuide <> g_slug MoreSamples.cachingGuideMoved /\
  g_category MoreSamples.cachingGuide <> g_category MoreSamples.cachingGuideMoved /\
  g_tags MoreSamples.cachingGuide <> g_tags MoreSamples.cachingGuideMoved /\
  g_architectureDiagram MoreSamples.cachingGuide
    <> g_architectureDiagram MoreSamples.cachingGuideMoved /\
  generateGuidePrompt (fun t => t) MoreSamples.cachingGuide
  = generateGuidePrompt (fun t => t) MoreSamples.cachingGuideMoved.
Proof.
  assert (H : GuideSpec.sameApartFromUnusedFields
                MoreSamples.cachingGuide MoreSamples.cachingGuideMoved).
  { unfold GuideSpec.sameApartFromUnusedFields. repeat split; reflexivity. }
  split; [exact H|].
  split; [discriminate|]. split; [discriminate|]. split; [discriminate|].
  split; [discriminate|].
  exact (X3_generateGuidePrompt_ignores_unused_fields (fun t => t) _ _ H).
Defined.

(** A template splits after any of its lines. *)
Lemma template_split (n : nat) (L : list string) :
  take n L <> [] -> drop n L <> [] ->
  template L = join nl (take n L) +:+ nl +:+ join nl (drop n L).
Proof.
  unfold template. revert L. induction n as [|n IH]; intros L; [done|].
  destruct L as [|x L]; [done|]. cbn [firstn skipn]. intros _ Hd.
  destruct n as [|n].
  - destruct L as [|y L]; [done|]. reflexivity.
  - destruct L as [|y L]; [done|].
    change (join nl (x :: y :: L)) with (x +:+ nl +:+ join nl (y :: L)).
    rewrite (IH (y :: L)); [|done|done].
    cbn [firstn]. change (join nl (x :: y :: take n L))
      with (x +:+ nl +:+ join nl (y :: take n L)).
    by rewrite !string_app_assoc.
Qed.

(** X4. The legacy prompt of a guide and the document-based prompt of an
    entry with the same title and tagline open with the same text, up to
    and including the first rule, and end with the same closing block;
    between the two the document-based prompt holds the body as it is,
    and nothing when the entry has no body. *)
Theorem X4_guide_generators_agree_around_the_reference
    (toLowerCase : string -> string) (g : FeatureGuide) (body : option string) :
  (exists reference,
     generateGuidePrompt toLowerCase g
     = GuideSpec.guidePreamble (toLowerCase (g_title g)) (g_title g) (g_tagline g)
       +:+ reference +:+ nl +:+ nl +:+ "---" +:+ nl +:+ nl +:+
       Spec.instructionsSection Spec.guideDirectives Spec.guideClosing) /\
  generateGuidePromptFromMdx toLowerCase (mkGuideEntry (g_title g) (g_tagline g) body)
  = GuideSpec.guidePreamble (toLowerCase (g_title g)) (g_title g) (g_tagline g)
    +:+ match body with Some text => text | None => "" end
    +:+ nl +:+ nl +:+ "---" +:+ nl +:+ nl +:+
    Spec.instructionsSection Spec.guideDirectives Spec.guideClosing /\
  Spec.instructionsBlock (generateGuidePrompt toLowerCase g)
  = Spec.instructionsBlock
      (generateGuidePromptFromMdx toLowerCase (mkGuideEntry (g_title g) (g_tagline g) body)).
Proof.
  split_and!.
  - unfold generateGuidePrompt.
    match goal with
    | |- context [template ?L] =>
        exists (join nl (take 22 (drop 8 L)));
        rewrite (template_split 8 L) by done;
        rewrite <- (take_drop 22 (drop 8 L)) at 1;
        change (join nl (take 22 (drop 8 L) ++ drop 22 (drop 8 L)))
          with (template (take 22 (drop 8 L) ++ drop 22 (drop 8 L)));
        rewrite (template_split 22 (take 22 (drop 8 L) ++ drop 22 (drop 8 L))) by done
    end.
    cbn [firstn skipn app]. unfold GuideSpec.guidePreamble. unfold_spec.
    rewrite !string_app_assoc. reflexivity.
  - destruct body as [text|];
      unfold generateGuidePromptFromMdx, GuideSpec.guidePreamble; unfold_spec;
      cbn [ge_title ge_tagline ge_body nullish]; rewrite !string_app_assoc; reflexivity.
  - by rewrite generateGuidePrompt_block, generateGuidePromptFromMdx_block.
Qed.

(** ** The document-based prompts keep the body *)

(** X5. For a fixed name (or title) and tagline the document-based
    prompts determine the body they were given: the prompts of two
    entries with bodies coincide exactly when the bodies are the same
    text, and the prompt of an entry without body is that of an entry with
    a body exactly when that body is empty. *)
Theorem X5_body_recoverable_from_prompt
    (toLowerCase : string -> string) (name title tagline body1 body2 : string) :
  (generateBuildPromptFromMdx (mkSystemEntry name tagline (Some body1))
   = generateBuildPromptFromMdx (mkSystemEntry name tagline (Some body2))
   <-> body1 = body2) /\
  (generateBuildPromptFromMdx (mkSystemEntry name tagline None)
   = generateBuildPromptFromMdx (mkSystemEntry name tagline (Some body1))
   <-> body1 = "") /\
  (generateGuidePromptFromMdx toLowerCase (mkGuideEntry title tagline (Some body1))
   = generateGuidePromptFromMdx toLowerCase (mkGuideEntry title tagline (Some body2))
   <-> body1 = body2) /\
  (generateGuidePromptFromMdx toLowerCase (mkGuideEntry title tagline None)
   = generateGuidePromptFromMdx toLowerCase (mkGuideEntry title tagline (Some body1))
   <-> body1 = "").
Proof.
  assert (forall b1 b2 : option string,
            generateBuildPromptFromMdx (mkSystemEntry name tagline b1)
            = generateBuildPromptFromMdx (mkSystemEntry name tagline b2) ->
            match b1 with Some t => t | None => "" end
            = match b2 with Some t => t | None => "" end) as Hsys.
  { intros b1 b2 H. rewrite !generateBuildPromptFromMdx_cases in H.
    unfold Spec.prompt in H. cbn [join] in H.
    repeat apply string_app_cancel_l in H.
    apply string_app_cancel_r in H.
    by repeat apply string_app_cancel_l in H. }
  assert (forall b1 b2 : option string,
            generateGuidePromptFromMdx toLowerCase (mkGuideEntry title tagline b1)
            = generateGuidePromptFromMdx toLowerCase (mkGuideEntry title tagline b2) ->
            match b1 with Some t => t | None => "" end
            = match b2 with Some t => t | None => "" end) as Hguide.
  { intros b1 b2 H.
    assert (forall b : option string,
              generateGuidePromptFromMdx toLowerCase (mkGuideEntry title tagline b)
              = Spec.guidePromptFromBody (toLowerCase title) title tagline
                  match b with Some t => t | None => "" end) as Hlayout.
    { intros [t|]; apply (generateGuidePromptFromMdx_layout toLowerCase). }
    rewrite !Hlayout in H.
    unfold Spec.guidePromptFromBody, Spec.prompt in H. cbn [join] in H.
    repeat apply string_app_cancel_l in H.
    by apply string_app_cancel_r in H. }
  split_and!; split.
  - apply (Hsys (Some body1) (Some body2)).
  - by intros ->.
  - intros H. symmetry. apply (Hsys None (Some body1) H).
  - by intros ->.
  - apply (Hguide (Some body1) (Some body2)).
  - by intros ->.
  - intros H. symmetry. apply (Hguide None (Some body1) H).
  - by intros ->.
Qed.

Lemma X5_witness :
  generateBuildPromptFromMdx (mkSystemEntry "Acme" "Anvils" (Some "## Overview"))
  <> generateBuildPromptFromMdx (mkSystemEntry "Acme" "Anvils" (Some "## Scale")) /\
  generateGuidePromptFromMdx (fun t => t) (mkGuideEntry "Webhooks" "Events" None)
  <> generateGuidePromptFromMdx (fun t => t) (mkGuideEntry "Webhooks" "Events" (Some "## Problem")).
Proof.
  split.
  - intros H.
    apply (proj1 (X5_body_recoverable_from_prompt (fun t => t) "Acme" "Webhooks" "Anvils"
                    "## Overview" "## Scale")) in H.
    discriminate H.
  - intros H.
    apply (proj1 (proj2 (proj2 (proj2
             (X5_body_recoverable_from_prompt (fun t => t) "Acme" "Webhooks" "Events"
                "## Problem" "## Scale"))))) in H.
    discriminate H.
Defined.

(** The guide generator on an entry with a body of two lines. *)
Example sseEntry_prompt :
  firstn 12 (Spec.lines (generateGuidePromptFromMdx (fun t => t) MoreSamples.sseEntry))
  = [ "# How to Build: Server-Sent Events"; "";
      "You are an expert software architect. I want to implement Server-Sent Events in my application. (One-way streaming over HTTP).";
      ""; Spec.guideGuidance; ""; "---"; "";
      "## Problem"; "Clients poll."; ""; "---" ].
Proof. vm_compute. reflexivity. Qed.

(** ** Empty lists *)

(** X6. On a record whose scale, requirements, components, deep dives
    and trade-offs are all empty the legacy system prompt keeps every
    heading; each list section is one empty line, and nothing stands in
    for the missing items. *)
Theorem X6_generateBuildPrompt_empty_lists (s : SystemDesign) :
  scale s = [] ->
  functional (requirements s) = [] -> nonFunctional (requirements s) = [] ->
  components s = [] -> deepDive s = [] -> tradeoffs s = [] ->
  generateBuildPrompt s
  = join nl
      ([ Spec.systemTitle (name s); "";
         Spec.systemParagraph (name s) (tagline s); "";
         Spec.systemGuidance; "";
         "---"; "";
         "## Overview"; overview s; "";
         "## Target Scale"; ""; "";
         "## Functional Requirements"; ""; "";
         "## Non-Functional Requirements"; ""; "";
         "## Architecture Components"; ""; "";
         "## Data Model (Mermaid ER Diagram)"; "```mermaid"; dataModel s; "```"; "";
         "## Key Architectural Deep Dives"; ""; "";
         "## Tradeoffs to Consider"; ""; "";
         "---"; "" ]
       ++ Spec.lines (Spec.instructionsSection Spec.systemDirectives Spec.systemClosing)).
Proof.
  intros Hs Hf Hn Hc Hd Ht. unfold generateBuildPrompt.
  rewrite Hs, Hf, Hn, Hc, Hd, Ht. reflexivity.
Qed.

Lemma X6_witness :
  Spec.lines (generateBuildPrompt (GuideSpec.bare "Acme" "Anvils" "Overview." "erDiagram"))
  = [ "# Build a Acme-like System"; "";
      "You are an expert software architect. I want to build a production-grade application inspired by Acme (Anvils)."; "";
      Spec.systemGuidance; "";
      "---"; "";
      "## Overview"; "Overview."; "";
      "## Target Scale"; ""; "";
      "## Functional Requirements"; ""; "";
      "## Non-Functional Requirements"; ""; "";
      "## Architecture Components"; ""; "";
      "## Data Model (Mermaid ER Diagram)"; "```mermaid"; "erDiagram"; "```"; "";
      "## Key Architectural Deep Dives"; ""; "";
      "## Tradeoffs to Consider"; ""; "";
      "---"; "" ]
    ++ Spec.lines (Spec.instructionsSection Spec.systemDirectives Spec.systemClosing).
Proof.
  rewrite (X6_generateBuildPrompt_empty_lists
             (GuideSpec.bare "Acme" "Anvils" "Overview." "erDiagram")
             eq_refl eq_refl eq_refl eq_refl eq_refl eq_refl).
  vm_compute. reflexivity.
Defined.

(** ** More on the roster queries *)

Section SetSpreadOrder.

Context {A : Type} `{EqDecision A}.

Lemma Set_add_all_app (seen l1 l2 : list A) :
  Set_add_all seen (l1 ++ l2) = Set_add_all (Set_add_all seen l1) l2.
Proof.
  revert seen. induction l1 as [|x l1 IH]; intros seen; cbn; [done|].
  destruct (decide (x ∈ seen)); apply IH.
Qed.

Lemma Set_add_all_prefix (seen l : list A) : seen `prefix_of` Set_add_all seen l.
Proof.
  revert seen. induction l as [|x l IH]; intros seen; cbn; [done|].
  destruct (decide (x ∈ seen)); [apply IH|].
  etrans; [|apply IH]. by apply prefix_app_r.
Qed.

(** Each value enters the set when it is first met. *)
Lemma Set_add_all_sublist (seen l : list A) :
  Set_add_all seen l `sublist_of` seen ++ l.
Proof.
  revert seen. induction l as [|x l IH]; intros seen; cbn.
  - by rewrite app_nil_r.
  - destruct (decide (x ∈ seen)).
    + etrans; [apply IH|]. apply sublist_app; [done|]. by apply sublist_cons.
    + etrans; [apply IH|]. by rewrite <- app_assoc.
Qed.

End SetSpreadOrder.

(** X7. [getAllCategories] and [getAllGuideCategories] list the
    categories that some record of the roster has, each once, in the order
    in which the roster first shows them: records added at the end of the
    roster leave the listing of the earlier ones as a prefix. *)
Theorem X7_getAllCategories_in_use_once_in_order
    (systems more : list SystemDesign) (guides moreGuides : list FeatureGuide) :
  (forall c, c ∈ Index.getAllCategories systems <-> exists r, r ∈ systems /\ category r = c) /\
  NoDup (Index.getAllCategories systems) /\
  Index.getAllCategories systems `sublist_of` map category systems /\
  Index.getAllCategories systems `prefix_of` Index.getAllCategories (systems ++ more) /\
  (forall c, c ∈ GuidesIndex.getAllGuideCategories guides <->
             exists g, g ∈ guides /\ g_category g = c) /\
  NoDup (GuidesIndex.getAllGuideCategories guides) /\
  GuidesIndex.getAllGuideCategories guides `sublist_of` map g_category guides /\
  GuidesIndex.getAllGuideCategories guides
    `prefix_of` GuidesIndex.getAllGuideCategories (guides ++ moreGuides).
Proof.
  unfold Index.getAllCategories, GuidesIndex.getAllGuideCategories, Set_spread.
  split_and!.
  - intros c. rewrite Set_add_all_elem_of, elem_of_nil, list_elem_of_In, in_map_iff.
    setoid_rewrite list_elem_of_In. split.
    + intros [[]|(r & <- & Hr)]. eauto.
    + intros (r & Hr & <-). right. eauto.
  - apply Set_add_all_NoDup, NoDup_nil_2.
  - apply (Set_add_all_sublist []).
  - rewrite map_app, Set_add_all_app. apply Set_add_all_prefix.
  - intros c. rewrite Set_add_all_elem_of, elem_of_nil, list_elem_of_In, in_map_iff.
    setoid_rewrite list_elem_of_In. split.
    + intros [[]|(r & <- & Hr)]. eauto.
    + intros (r & Hr & <-). right. eauto.
  - apply Set_add_all_NoDup, NoDup_nil_2.
  - apply (Set_add_all_sublist []).
  - rewrite map_app, Set_add_all_app. apply Set_add_all_prefix.
Qed.

Example getAllCategories_example :
  Index.getAllCategories Samples.roster = [commerce; messaging] /\
  Index.getAllCategories (Samples.roster ++ [MoreSamples.wideScale])
  = [commerce; messaging; streaming].
Proof. split; vm_compute; reflexivity. Qed.

Section Grouping.

Context {A K : Type} (key : A -> K) (eqb : K -> K -> bool).
Hypothesis eqb_true : forall a b, eqb a b = true <-> a = b.

Lemma flat_map_filter_absent (l : list A) (x : A) (ks : list K) :
  key x ∉ ks ->
  flat_map (fun k => JS.filter (fun r => eqb (key r) k) (x :: l)) ks
  = flat_map (fun k => JS.filter (fun r => eqb (key r) k) l) ks.
Proof.
  induction ks as [|k ks IH]; intros Hx; cbn [flat_map]; [done|].
  apply not_elem_of_cons in Hx as [Hne Hx]. rewrite (IH Hx).
  change (JS.filter (fun r => eqb (key r) k) (x :: l))
    with (if eqb (key x) k then x :: JS.filter (fun r => eqb (key r) k) l
          else JS.filter (fun r => eqb (key r) k) l).
  destruct (eqb (key x) k) eqn:E; [|done].
  by apply eqb_true in E.
Qed.

Lemma flat_map_filter_present (l : list A) (x : A) (ks : list K) :
  NoDup ks -> key x ∈ ks ->
  flat_map (fun k => JS.filter (fun r => eqb (key r) k) (x :: l)) ks
  ≡ₚ x :: flat_map (fun k => JS.filter (fun r => eqb (key r) k) l) ks.
Proof.
  induction ks as [|k ks IH]; intros Hnd Hx; [by apply elem_of_nil in Hx|].
  apply NoDup_cons in Hnd as [Hk Hnd]. cbn [flat_map].
  change (JS.filter (fun r => eqb (key r) k) (x :: l))
    with (if eqb (key x) k then x :: JS.filter (fun r => eqb (key r) k) l
          else JS.filter (fun r => eqb (key r) k) l).
  destruct (eqb (key x) k) eqn:E.
  - apply eqb_true in E. subst k.
    rewrite (flat_map_filter_absent l x ks Hk). done.
  - apply elem_of_cons in Hx as [Heq|Hx].
    { apply eqb_true in Heq. congruence. }
    rewrite (IH Hnd Hx). by rewrite Permutation_middle.
Qed.

(** Grouping a list by the keys it shows rearranges it and nothing else. *)
Lemma group_by_keys_Permutation (l : list A) (ks : list K) :
  NoDup ks -> (forall r, r ∈ l -> key r ∈ ks) ->
  flat_map (fun k => JS.filter (fun r => eqb (key r) k) l) ks ≡ₚ l.
Proof.
  intros Hnd. induction l as [|x l IH]; intros Hks.
  - clear. induction ks as [|k ks IH]; [done|]. cbn. by rewrite IH.
  - rewrite flat_map_filter_present; [|done|apply Hks; left].
    constructor. apply IH. intros r Hr. apply Hks. by right.
Qed.

End Grouping.

(** X8. Listing the roster category by category, over the categories of
    [getAllCategories], gives every record of the roster exactly once: the
    groups are a rearrangement of the roster.  The same holds for the
    guides. *)
Theorem X8_categories_partition_the_roster
    (systems : list SystemDesign) (guides : list FeatureGuide) :
  flat_map (Index.getSystemsByCategory systems) (Index.getAllCategories systems)
    ≡ₚ systems /\
  flat_map (GuidesIndex.getGuidesByCategory guides)
           (GuidesIndex.getAllGuideCategories guides)
    ≡ₚ guides.
Proof.
  split.
  - apply (group_by_keys_Permutation category Category_strict_eq Category_strict_eq_true).
    + apply Set_spread_NoDup.
    + intros r Hr. apply Set_spread_elem_of, list_elem_of_In, in_map.
      by apply list_elem_of_In.
  - apply (group_by_keys_Permutation g_category GuideCategory_strict_eq
             GuideCategory_strict_eq_true).
    + apply Set_spread_NoDup.
    + intros r Hr. apply Set_spread_elem_of, list_elem_of_In, in_map.
      by apply list_elem_of_In.
Qed.

Example partition_example :
  flat_map (Index.getSystemsByCategory Samples.roster) (Index.getAllCategories Samples.roster)
  = [Samples.acmeRetagged; Samples.acme; Samples.acmeShadow].
Proof. vm_compute. reflexivity. Qed.

(** X9. In a roster without repeated slug every record is the one its
    own slug finds; the same for the guides. *)
Theorem X9_getBySlug_finds_each_record_when_slugs_are_unique
    (systems : list SystemDesign) (guides : list FeatureGuide) :
  NoDup (map slug systems) -> NoDup (map g_slug guides) ->
  (forall r, r ∈ systems -> Index.getSystemBySlug systems (slug r) = Some r) /\
  (forall g, g ∈ guides -> GuidesIndex.getGuideBySlug guides (g_slug g) = Some g).
Proof.
  intros Hs Hg. split.
  - intros r Hr. unfold Index.getSystemBySlug. apply find_Some_first.
    apply list_elem_of_split in Hr as (before & after & ->).
    exists before, after. split_and!; [done|apply String.eqb_refl|].
    rewrite map_app in Hs. apply NoDup_app in Hs as (_ & Hdis & _).
    apply Forall_forall. intros x Hx. apply String.eqb_neq. intros Heq.
    apply (Hdis (slug x)).
    + apply list_elem_of_In, in_map. by apply list_elem_of_In.
    + rewrite Heq. cbn. left.
  - intros r Hr. unfold GuidesIndex.getGuideBySlug. apply find_Some_first.
    apply list_elem_of_split in Hr as (before & after & ->).
    exists before, after. split_and!; [done|apply String.eqb_refl|].
    rewrite map_app in Hg. apply NoDup_app in Hg as (_ & Hdis & _).
    apply Forall_forall. intros x Hx. apply String.eqb_neq. intros Heq.
    apply (Hdis (g_slug x)).
    + apply list_elem_of_In, in_map. by apply list_elem_of_In.
    + rewrite Heq. cbn. left.
Qed.

Lemma X9_witness :
  Index.getSystemBySlug MoreSamples.distinctRoster "wide" = Some MoreSamples.wideScale /\
  GuidesIndex.getGuideBySlug Samples.guideRoster "webhooks" = Some Samples.webhooksGuide.
Proof.
  assert (Hs : NoDup (map slug MoreSamples.distinctRoster)).
  { apply (bool_decide_unpack (NoDup (map slug MoreSamples.distinctRoster))).
    vm_compute. exact I. }
  assert (Hg : NoDup (map g_slug Samples.guideRoster)).
  { apply (bool_decide_unpack (NoDup (map g_slug Samples.guideRoster))).
    vm_compute. exact I. }
  destruct (X9_getBySlug_finds_each_record_when_slugs_are_unique
              MoreSamples.distinctRoster Samples.guideRoster Hs Hg) as [H1 H2].
  split.
  - apply (H1 MoreSamples.wideScale). apply list_elem_of_further, list_elem_of_here.
  - apply (H2 Samples.webhooksGuide). apply list_elem_of_further, list_elem_of_here.
Defined.

(** On the sample roster with a repeated slug the later record is not
    the one its slug finds. *)
Example shadowed_record_not_found :
  Samples.acmeShadow ∈ Samples.roster /\
  Index.getSystemBySlug Samples.roster (slug Samples.acmeShadow) = Some Samples.acme.
Proof.
  split; [|reflexivity].
  apply list_elem_of_further, list_elem_of_further, list_elem_of_here.
Qed.

(** A strictly ascending listing is determined by its elements. *)
Lemma sorted_set_unique (l k : list string) :
  StronglySorted JS.le l -> StronglySorted JS.le k ->
  NoDup l -> NoDup k -> (forall t, t ∈ l <-> t ∈ k) -> l = k.
Proof.
  intros Hl Hk Hnl Hnk Hsame.
  apply (StronglySorted_unique JS.le); [done|done|].
  by apply NoDup_Permutation.
Qed.

(** X10. The tag listing depends on the roster only through the set of
    its tags: two rosters that show the same tags, in whatever order and
    however often, have the same [getAllTags]; likewise for the guides. *)
Theorem X10_getAllTags_depends_on_the_tag_set_only
    (systems systems' : list SystemDesign) (guides guides' : list FeatureGuide) :
  (forall t, (exists r, r ∈ systems /\ t ∈ tags r) <->
             (exists r, r ∈ systems' /\ t ∈ tags r)) ->
  (forall t, (exists g, g ∈ guides /\ t ∈ g_tags g) <->
             (exists g, g ∈ guides' /\ t ∈ g_tags g)) ->
  Index.getAllTags systems = Index.getAllTags systems' /\
  GuidesIndex.getAllGuideTags guides = GuidesIndex.getAllGuideTags guides'.
Proof.
  intros Hs Hg. unfold Index.getAllTags, GuidesIndex.getAllGuideTags. split.
  - apply sorted_set_unique;
      [apply sort_Sorted..|apply sort_NoDup, Set_spread_NoDup
                           |apply sort_NoDup, Set_spread_NoDup|].
    intros t. by rewrite !sort_elem_of, !Set_spread_elem_of, !flatMap_elem_of.
  - apply sorted_set_unique;
      [apply sort_Sorted..|apply sort_NoDup, Set_spread_NoDup
                           |apply sort_NoDup, Set_spread_NoDup|].
    intros t. by rewrite !sort_elem_of, !Set_spread_elem_of, !flatMap_elem_of.
Qed.

Lemma X10_witness :
  Index.getAllTags Samples.roster = Index.getAllTags (rev Samples.roster ++ Samples.roster) /\
  GuidesIndex.getAllGuideTags Samples.guideRoster
  = GuidesIndex.getAllGuideTags (rev Samples.guideRoster).
Proof.
  apply X10_getAllTags_depends_on_the_tag_set_only.
  - intros t. split.
    + intros (r & Hr & Ht). exists r. split; [|exact Ht].
      apply elem_of_app. right. exact Hr.
    + intros (r & Hr & Ht). exists r. split; [|exact Ht].
      apply elem_of_app in Hr as [Hr|Hr]; [|exact Hr].
      apply elem_of_reverse in Hr. exact Hr.
  - intros t. split.
    + intros (r & Hr & Ht). exists r. split; [|exact Ht].
      apply elem_of_reverse. exact Hr.
    + intros (r & Hr & Ht). exists r. split; [|exact Ht].
      apply elem_of_reverse in Hr. exact Hr.
Defined.

(** X11. A record found by slug has that slug, belongs to the roster, is
    listed under its own category, and the category and tags it carries
    are listed by [getAllCategories] and [getAllTags]. *)
Theorem X11_found_record_is_listed_everywhere
    (systems : list SystemDesign) (key : string) (r : SystemDesign) :
  Index.getSystemBySlug systems key = Some r ->
  slug r = key /\
  r ∈ systems /\
  r ∈ Index.getSystemsByCategory systems (category r) /\
  category r ∈ Index.getAllCategories systems /\
  (forall t, t ∈ tags r -> t ∈ Index.getAllTags systems).
Proof.
  intros H. apply find_Some_first in H as (before & after & -> & Hk & _).
  apply String.eqb_eq in Hk.
  assert (r ∈ before ++ r :: after) as Hr.
  { apply elem_of_app. right. left. }
  split_and!.
  - exact Hk.
  - exact Hr.
  - unfold Index.getSystemsByCategory. apply filter_elem_of. split; [exact Hr|].
    by apply Category_strict_eq_true.
  - unfold Index.getAllCategories. apply Set_spread_elem_of, list_elem_of_In, in_map.
    by apply list_elem_of_In.
  - intros t Ht. unfold Index.getAllTags.
    apply sort_elem_of, Set_spread_elem_of, flatMap_elem_of. eauto.
Qed.

Lemma X11_witness :
  slug Samples.acme = "acme" /\
  Samples.acme ∈ Samples.roster /\
  Samples.acme ∈ Index.getSystemsByCategory Samples.roster (category Samples.acme) /\
  category Samples.acme ∈ Index.getAllCategories Samples.roster /\
  (forall t, t ∈ tags Samples.acme -> t ∈ Index.getAllTags Samples.roster).
Proof.
  exact (X11_found_record_is_listed_everywhere Samples.roster "acme" Samples.acme eq_refl).
Defined.

(** X12. Filtering a category listing again by the same category changes
    nothing, and filtering it by another category leaves nothing: the
    listings of two categories never share a record. *)
Theorem X12_getByCategory_composes
    (systems : list SystemDesign) (guides : list FeatureGuide)
    (c c' : Category) (gc gc' : GuideCategory) :
  Index.getSystemsByCategory (Index.getSystemsByCategory systems c) c'
  = (if decide (c = c') then Index.getSystemsByCategory systems c else []) /\
  GuidesIndex.getGuidesByCategory (GuidesIndex.getGuidesByCategory guides gc) gc'
  = (if decide (gc = gc') then GuidesIndex.getGuidesByCategory guides gc else []).
Proof.
  unfold Index.getSystemsByCategory, GuidesIndex.getGuidesByCategory, JS.filter. split.
  - destruct (decide (c = c')) as [<-|Hne].
    + induction systems as [|x l IH]; [done|]. cbn.
      destruct (Category_strict_eq (category x) c) eqn:E; cbn; rewrite ?E, IH; done.
    + induction systems as [|x l IH]; [done|]. cbn.
      destruct (Category_strict_eq (category x) c) eqn:E; cbn; [|done].
      apply Category_strict_eq_true in E.
      assert (Category_strict_eq (category x) c' = false) as ->
        by (apply Category_strict_eq_false; congruence).
      exact IH.
  - destruct (decide (gc = gc')) as [<-|Hne].
    + induction guides as [|x l IH]; [done|]. cbn.
      destruct (GuideCategory_strict_eq (g_category x) gc) eqn:E; cbn; rewrite ?E, IH; done.
    + induction guides as [|x l IH]; [done|]. cbn.
      destruct (GuideCategory_strict_eq (g_category x) gc) eqn:E; cbn; [|done].
      apply GuideCategory_strict_eq_true in E.
      assert (GuideCategory_strict_eq (g_category x) gc' = false) as ->
        by (apply GuideCategory_strict_eq_false; congruence).
      exact IH.
Qed.

(** ** More on the preview cards *)

Lemma lookup_map {A B} (f : A -> B) (l : list A) (i : nat) :
  map f l !! i = f <$> (l !! i).
Proof. apply (list_lookup_fmap f l i). Qed.

Lemma scaleEntries_lookup (s : SystemDesign) (i : nat) :
  OgImage.scaleEntries s !! i = if decide (i < 4)%nat then scale s !! i else None.
Proof.
  unfold OgImage.scaleEntries, slice0. destruct (decide (i < 4)%nat).
  - by apply lookup_take_lt.
  - apply lookup_take_ge. lia.
Qed.

(** X13. The card of a system shows the first four scale entries and no
    more: the bottom row has one cell for each of them, in order, with
    the value above the key, and the record's further entries, if any,
    have no cell. *)
Theorem X13_card_shows_first_four_scale_entries (s : SystemDesign) :
  length (OgImage.scaleEntries s) = Nat.min 4 (length (scale s)) /\
  OgImage.scaleEntries s `prefix_of` scale s /\
  (forall i, OgImage.scaleEntries s !! i
             = if decide (i < 4)%nat then scale s !! i else None) /\
  (forall i, OgImage.node_at [2; 2; i]%nat (OgImage.card s) = None
             <-> OgImage.scaleEntries s !! i = None) /\
  (forall i key value,
     OgImage.scaleEntries s !! i = Some (key, value) ->
     OgImage.text_at [2; 2; i; 0]%nat (OgImage.card s) = Some (Some value) /\
     OgImage.text_at [2; 2; i; 1]%nat (OgImage.card s) = Some (Some key)).
Proof.
  split_and!.
  - unfold OgImage.scaleEntries, slice0. apply length_take.
  - unfold OgImage.scaleEntries, slice0. apply prefix_take.
  - apply scaleEntries_lookup.
  - intros i. unfold OgImage.card. cbn [OgImage.node_at lookup list_lookup].
    rewrite lookup_map. destruct (OgImage.scaleEntries s !! i) as [[k v]|]; cbn; done.
  - intros i k v Hi. unfold OgImage.text_at, OgImage.card.
    cbn [OgImage.node_at lookup list_lookup].
    rewrite lookup_map, Hi. cbn. done.
Qed.

Lemma X13_witness :
  OgImage.text_at [2; 2; 3; 0]%nat (OgImage.card MoreSamples.wideScale) = Some (Some "900") /\
  OgImage.text_at [2; 2; 3; 1]%nat (OgImage.card MoreSamples.wideScale) = Some (Some "Edges") /\
  OgImage.node_at [2; 2; 4]%nat (OgImage.card MoreSamples.wideScale) = None.
Proof.
  destruct (X13_card_shows_first_four_scale_entries MoreSamples.wideScale)
    as (_ & _ & _ & Hnone & Hcell).
  destruct (Hcell 3%nat "Edges" "900" eq_refl) as [Hv Hk].
  split; [exact Hv|]. split; [exact Hk|].
  apply Hnone. reflexivity.
Defined.

(** X14. The card of a system depends on the record only through its
    name, tagline, category and first four scale entries. *)
Theorem X14_card_depends_on_four_fields (a b : SystemDesign) :
  name a = name b -> tagline a = tagline b -> category a = category b ->
  take 4 (scale a) = take 4 (scale b) ->
  OgImage.card a = OgImage.card b.
Proof.
  intros Hn Ht Hc Hs.
  unfold OgImage.card, OgImage.color, OgImage.scaleEntries, slice0.
  by rewrite Hn, Ht, Hc, Hs.
Qed.

Lemma X14_witness :
  scale MoreSamples.wideScale <> scale MoreSamples.wideScaleOther /\
  slug MoreSamples.wideScale <> slug MoreSamples.wideScaleOther /\
  overview MoreSamples.wideScale <> overview MoreSamples.wideScaleOther /\
  OgImage.card MoreSamples.wideScale = OgImage.card MoreSamples.wideScaleOther.
Proof.
  split; [discriminate|]. split; [discriminate|]. split; [discriminate|].
  exact (X14_card_depends_on_four_fields MoreSamples.wideScale MoreSamples.wideScaleOther
           eq_refl eq_refl eq_refl eq_refl).
Defined.

(** X15. The badge of a system card shows the label of the category,
    which the table of [src/data/types.ts] has for each of the eleven
    categories; the colour of the card is the one its own table of seven
    gives, and the fallback [#6b4c3b] for the four categories added after
    the first revision, which are exactly those the first revision of the
    label table does not know. *)
Theorem X15_badge_shows_label_and_color_by_category (s : SystemDesign) :
  OgImage.text_at OgImage.categoryBadge (OgImage.card s)
  = Some (Some match category s with
               | messaging => "Messaging"
               | social => "Social Media"
               | streaming => "Streaming"
               | transport => "Transportation"
               | search => "Search & Discovery"
               | commerce => "E-Commerce"
               | infra => "Infrastructure"
               | video => "Video & Conferencing"
               | devtools => "Developer Tools"
               | ai => "AI & ML"
               | productivity => "Productivity"
               end) /\
  OgImage.text_at OgImage.categoryBadge (OgImage.card s)
  = Some (Types.categoryLabels !! Category_key (category s)) /\
  OgImage.color s
  = match category s with
    | messaging => "#2d6a4f"
    | social => "#7b2d8b"
    | streaming => "#c2185b"
    | transport => "#1565c0"
    | search => "#e65100"
    | commerce => "#4e342e"
    | infra => "#37474f"
    | video | devtools | ai | productivity => "#6b4c3b"
    end /\
  (OgImage.color s = "#6b4c3b"
   <-> category s ∈ [video; devtools; ai; productivity]) /\
  (OgImage.categoryColor !! Category_key (category s) = None
   <-> TypesFirstRevision.categoryLabels !! Category_key (category s) = None).
Proof.
  destruct s as [sl nm tg c tgs ov sc rq hl cs dm dd tr].
  split_and!.
  - by destruct c.
  - reflexivity.
  - by destruct c.
  - cbn [category]. destruct c; split; intros H;
      try (vm_compute in H; discriminate H);
      try (vm_compute; reflexivity);
      try (repeat (apply elem_of_cons in H as [H|H]; [discriminate H|]);
           by apply elem_of_nil in H);
      apply (bool_decide_unpack _); vm_compute; exact I.
  - cbn [category]. destruct c; vm_compute; split; (reflexivity || discriminate).
Qed.

(** ** The routes *)

Lemma find_is_Some {A} (f : A -> bool) (l : list A) :
  is_Some (JS.find f l) <-> exists x, x ∈ l /\ f x = true.
Proof.
  split.
  - intros [r Hr]. apply find_Some_first in Hr as (before & after & -> & Hf & _).
    exists r. split; [|done]. apply elem_of_app. right. left.
  - intros (x & Hx & Hf). destruct (JS.find f l) eqn:E; [done|].
    apply find_None_all in E. rewrite Forall_forall in E.
    specialize (E x Hx). congruence.
Qed.

Lemma find_by_unique_key {A} (key : A -> string) (l : list A) (r : A) :
  NoDup (map key l) -> r ∈ l ->
  JS.find (fun x => String.eqb (key x) (key r)) l = Some r.
Proof.
  intros Hnd Hr. apply find_Some_first.
  apply list_elem_of_split in Hr as (before & after & ->).
  exists before, after. split_and!; [done|apply String.eqb_refl|].
  rewrite map_app in Hnd. apply NoDup_app in Hnd as (_ & Hdis & _).
  apply Forall_forall. intros x Hx. apply String.eqb_neq. intros Heq.
  apply (Hdis (key x)).
  - apply list_elem_of_In, in_map. by apply list_elem_of_In.
  - rewrite Heq. cbn. left.
Qed.

(** X16. [getStaticPaths] makes one route per record, in roster order,
    whose parameter is the slug of the record it carries; a slug has a
    route exactly when [getSystemBySlug] finds a record for it, and in a
    roster without repeated slug the record a route carries is the one its
    slug finds.  The same holds for the routes of the guides. *)
Theorem X16_routes_match_slug_lookup
    (systems : list SystemDesign) (guides : list FeatureGuide) :
  map OgRoutes.props_system (OgRoutes.getStaticPaths systems) = systems /\
  map OgRoutes.params_slug (OgRoutes.getStaticPaths systems) = map slug systems /\
  (forall key, key ∈ map OgRoutes.params_slug (OgRoutes.getStaticPaths systems)
               <-> is_Some (Index.getSystemBySlug systems key)) /\
  (NoDup (map slug systems) ->
   forall p, p ∈ OgRoutes.getStaticPaths systems ->
     Index.getSystemBySlug systems (OgRoutes.params_slug p)
     = Some (OgRoutes.props_system p)) /\
  map OgRoutes.props_guide (OgRoutes.getGuideStaticPaths guides) = guides /\
  map OgRoutes.g_params_slug (OgRoutes.getGuideStaticPaths guides) = map g_slug guides /\
  (forall key, key ∈ map OgRoutes.g_params_slug (OgRoutes.getGuideStaticPaths guides)
               <-> is_Some (GuidesIndex.getGuideBySlug guides key)) /\
  (NoDup (map g_slug guides) ->
   forall p, p ∈ OgRoutes.getGuideStaticPaths guides ->
     GuidesIndex.getGuideBySlug guides (OgRoutes.g_params_slug p)
     = Some (OgRoutes.props_guide p)).
Proof.
  unfold OgRoutes.getStaticPaths, OgRoutes.getGuideStaticPaths.
  split_and!.
  - rewrite map_map. apply map_id.
  - by rewrite map_map.
  - intros key. rewrite map_map. cbn [OgRoutes.params_slug].
    unfold Index.getSystemBySlug. rewrite find_is_Some, list_elem_of_In, in_map_iff.
    setoid_rewrite list_elem_of_In. setoid_rewrite String.eqb_eq.
    split; intros (x & H1 & H2); eauto.
  - intros Hnd p Hp. apply list_elem_of_In, in_map_iff in Hp as (r & <- & Hr).
    cbn [OgRoutes.params_slug OgRoutes.props_system].
    apply (find_by_unique_key slug); [done|]. by apply list_elem_of_In.
  - rewrite map_map. apply map_id.
  - by rewrite map_map.
  - intros key. rewrite map_map. cbn [OgRoutes.g_params_slug].
    unfold GuidesIndex.getGuideBySlug. rewrite find_is_Some, list_elem_of_In, in_map_iff.
    setoid_rewrite list_elem_of_In. setoid_rewrite String.eqb_eq.
    split; intros (x & H1 & H2); eauto.
  - intros Hnd p Hp. apply list_elem_of_In, in_map_iff in Hp as (r & <- & Hr).
    cbn [OgRoutes.g_params_slug OgRoutes.props_guide].
    apply (find_by_unique_key g_slug); [done|]. by apply list_elem_of_In.
Qed.

Lemma X16_witness :
  Index.getSystemBySlug MoreSamples.distinctRoster "acme-2" = Some Samples.acmeRetagged /\
  "webhooks" ∈ map OgRoutes.g_params_slug (OgRoutes.getGuideStaticPaths Samples.guideRoster).
Proof.
  destruct (X16_routes_match_slug_lookup MoreSamples.distinctRoster Samples.guideRoster)
    as (_ & _ & _ & Hfound & _ & _ & Hroute & _).
  assert (Hnd : NoDup (map slug MoreSamples.distinctRoster)).
  { apply (bool_decide_unpack (NoDup (map slug MoreSamples.distinctRoster))).
    vm_compute. exact I. }
  split.
  - apply (Hfound Hnd (OgRoutes.mkSystemPath "acme-2" Samples.acmeRetagged)).
    apply list_elem_of_further, list_elem_of_further, list_elem_of_here.
  - apply Hroute. exists Samples.webhooksGuide. reflexivity.
Defined.

(** On the sample roster with a repeated slug the route of the later
    record carries a record that its slug does not find. *)
Example route_of_shadowed_record :
  OgRoutes.getStaticPaths Samples.roster !! 2%nat
  = Some (OgRoutes.mkSystemPath "acme" Samples.acmeShadow) /\
  Index.getSystemBySlug Samples.roster "acme" = Some Samples.acme.
Proof. split; reflexivity. Qed.

(** X17. The colour table of the guide card has an entry for each of the
    seven guide categories, so a guide never gets the fallback colour;
    two guides have the same colour exactly when they have the same
    category.  The card lists the first five tags of the guide. *)
Theorem X17_guide_card_color_total_and_five_tags (g g' : FeatureGuide) :
  GuideOgImage.categoryColor !! GuideCategory_key (g_category g)
  = Some (GuideOgImage.color g) /\
  GuideOgImage.color g <> "#6b4c3b" /\
  (GuideOgImage.color g = GuideOgImage.color g' <-> g_category g = g_category g') /\
  length (GuideOgImage.tagList g) = Nat.min 5 (length (g_tags g)) /\
  GuideOgImage.tagList g `prefix_of` g_tags g /\
  (forall i, GuideOgImage.tagList g !! i
             = if decide (i < 5)%nat then g_tags g !! i else None).
Proof.
  unfold GuideOgImage.color, GuideOgImage.tagList, slice0.
  split_and!.
  - destruct (g_category g); vm_compute; reflexivity.
  - destruct (g_category g); vm_compute; discriminate.
  - destruct (g_category g), (g_category g'); vm_compute;
      split; (reflexivity || discriminate).
  - apply length_take.
  - apply prefix_take.
  - intros i. destruct (decide (i < 5)%nat).
    + by apply lookup_take_lt.
    + apply lookup_take_ge. lia.
Qed.

Example guide_tagList_example :
  GuideOgImage.tagList MoreSamples.cachingGuide
  = ["caching"; "Redis"; "invalidation"; "performance"; "distributed"].
Proof. reflexivity. Qed.

(** ** The tables and the schema *)

Lemma all_categories_complete (c : Category) : c ∈ all_categories.
Proof. destruct c; unfold all_categories; repeat (first [left | right]). Qed.

Lemma all_guide_categories_complete (c : GuideCategory) : c ∈ all_guide_categories.
Proof. destruct c; unfold all_guide_categories; repeat (first [left | right]). Qed.

Lemma is_Some_object_literal (props : list (string * string)) (k : string) :
  is_Some (object_literal props !! k) <-> k ∈ map fst props.
Proof.
  unfold object_literal.
  assert (forall m : gmap string string,
            is_Some (foldl (fun m kv => <[kv.1 := kv.2]> m) m props !! k)
            <-> is_Some (m !! k) \/ k ∈ map fst props) as H.
  { induction props as [|[k' v] props IH]; intros m; cbn.
    - rewrite elem_of_nil. tauto.
    - rewrite IH, lookup_insert_is_Some', elem_of_cons. intuition congruence. }
  rewrite H. split; [|by right].
  intros [Hs|Hin]; [|exact Hin]. by apply lookup_empty_is_Some in Hs.
Qed.

(** X18. The categories that the content schema accepts are the members
    of the category unions, in the same order, and they are exactly the
    keys of the label and colour tables of [src/lib/categories.ts]: a
    document that passes the schema has a label and a colour. *)
Theorem X18_schema_categories_are_the_table_keys (k : string) :
  map Category_key all_categories = ContentConfig.systemCategories /\
  map GuideCategory_key all_guide_categories = ContentConfig.guideCategories /\
  (k ∈ ContentConfig.systemCategories <-> exists c, Category_key c = k) /\
  (k ∈ ContentConfig.systemCategories <-> is_Some (Categories.categoryLabels !! k)) /\
  (k ∈ ContentConfig.systemCategories <-> is_Some (Categories.categoryColors !! k)) /\
  (k ∈ ContentConfig.guideCategories <-> exists c, GuideCategory_key c = k) /\
  (k ∈ ContentConfig.guideCategories <-> is_Some (Categories.guideCategoryLabels !! k)) /\
  (k ∈ ContentConfig.guideCategories <-> is_Some (Categories.guideCategoryColors !! k)).
Proof.
  split_and!; try reflexivity.
  - change ContentConfig.systemCategories with (map Category_key all_categories).
    rewrite list_elem_of_In, in_map_iff. split.
    + intros (c & <- & _). eauto.
    + intros (c & <-). exists c. split; [done|].
      apply list_elem_of_In, all_categories_complete.
  - unfold Categories.categoryLabels. by rewrite is_Some_object_literal.
  - unfold Categories.categoryColors. by rewrite is_Some_object_literal.
  - change ContentConfig.guideCategories with (map GuideCategory_key all_guide_categories).
    rewrite list_elem_of_In, in_map_iff. split.
    + intros (c & <- & _). eauto.
    + intros (c & <-). exists c. split; [done|].
      apply list_elem_of_In, all_guide_categories_complete.
  - unfold Categories.guideCategoryLabels. by rewrite is_Some_object_literal.
  - unfold Categories.guideCategoryColors. by rewrite is_Some_object_literal.
Qed.

Lemma foldl_insert_fresh (props : list (string * string)) (m : gmap string string)
    (k v : string) :
  k ∉ map fst props -> m !! k = Some v ->
  foldl (fun m kv => <[kv.1 := kv.2]> m) m props !! k = Some v.
Proof.
  revert m. induction props as [|[k' v'] props IH]; intros m Hk Hm; cbn; [done|].
  cbn in Hk. apply not_elem_of_cons in Hk as [Hne Hk].
  apply IH; [done|]. by rewrite lookup_insert_ne.
Qed.

(** Properties appended to an object literal under new keys leave the
    earlier ones as they were. *)
Lemma object_literal_extends (l1 l2 : list (string * string)) (k v : string) :
  Forall (fun k' => k' ∉ map fst l1) (map fst l2) ->
  object_literal l1 !! k = Some v -> object_literal (l1 ++ l2) !! k = Some v.
Proof.
  intros Hfresh Hk. unfold object_literal. rewrite foldl_app.
  apply foldl_insert_fresh; [|exact Hk].
  intros Hin. rewrite Forall_forall in Hfresh. apply (Hfresh k Hin).
  apply is_Some_object_literal. by exists v.
Qed.

Ltac solve_fresh :=
  repeat constructor;
  let H := fresh in
  intros H; repeat (apply elem_of_cons in H as [H|H]; [discriminate H|]);
  by apply elem_of_nil in H.

(** X19. The tables of [src/lib/categories.ts] extend those of
    [src/data/types.ts]: every label and colour token that the legacy
    tables give is given unchanged by the current ones, and the legacy
    tables in turn give unchanged what their first revision, of seven
    categories, gave. *)
Theorem X19_current_tables_extend_legacy_tables (k v : string) :
  (Types.categoryLabels !! k = Some v -> Categories.categoryLabels !! k = Some v) /\
  (Types.categoryColors !! k = Some v -> Categories.categoryColors !! k = Some v) /\
  (TypesFirstRevision.categoryLabels !! k = Some v -> Types.categoryLabels !! k = Some v) /\
  (TypesFirstRevision.categoryColors !! k = Some v -> Types.categoryColors !! k = Some v) /\
  (TypesFirstRevision.categoryLabels !! k = Some v -> Categories.categoryLabels !! k = Some v) /\
  (TypesFirstRevision.categoryColors !! k = Some v -> Categories.categoryColors !! k = Some v).
Proof.
  assert (TypesFirstRevision.categoryLabels !! k = Some v ->
          Types.categoryLabels !! k = Some v) as Hlabels.
  { intros H. unfold TypesFirstRevision.categoryLabels in H. unfold Types.categoryLabels.
    match type of H with
    | object_literal ?l1 !! _ = _ =>
        match goal with
        | |- object_literal ?l !! _ = _ =>
            change l with (l1 ++ drop 7 l); apply object_literal_extends; [|exact H]
        end
    end.
    cbn [skipn map fst]. solve_fresh. }
  assert (TypesFirstRevision.categoryColors !! k = Some v ->
          Types.categoryColors !! k = Some v) as Hcolors.
  { intros H. unfold TypesFirstRevision.categoryColors in H. unfold Types.categoryColors.
    match type of H with
    | object_literal ?l1 !! _ = _ =>
        match goal with
        | |- object_literal ?l !! _ = _ =>
            change l with (l1 ++ drop 7 l); apply object_literal_extends; [|exact H]
        end
    end.
    cbn [skipn map fst]. solve_fresh. }
  assert (Types.categoryLabels = Categories.categoryLabels) as El by reflexivity.
  assert (Types.categoryColors = Categories.categoryColors) as Ec by reflexivity.
  rewrite <- El, <- Ec. split_and!; auto.
Qed.

Lemma X19_witness :
  Categories.categoryLabels !! "search" = Some "Search & Discovery" /\
  Categories.categoryColors !! "infra" = Some "bg-cat-infra" /\
  Types.categoryLabels !! "commerce" = Some "E-Commerce".
Proof.
  split_and!.
  - apply (proj1 (X19_current_tables_extend_legacy_tables "search" "Search & Discovery")).
    vm_compute. reflexivity.
  - apply (proj1 (proj2 (X19_current_tables_extend_legacy_tables "infra" "bg-cat-infra"))).
    vm_compute. reflexivity.
  - apply (proj1 (proj2 (proj2 (X19_current_tables_extend_legacy_tables "commerce" "E-Commerce")))).
    vm_compute. reflexivity.
Defined.

(** X20. In the tables of [src/lib/categories.ts] every category has a
    label and a colour token of its own: two system categories, or two
    guide categories, with the same label or with the same token are the
    same category. *)
Theorem X20_labels_and_tokens_identify_the_category
    (c c' : Category) (g g' : GuideCategory) :
  is_Some (Categories.categoryLabels !! Category_key c) /\
  is_Some (Categories.categoryColors !! Category_key c) /\
  is_Some (Categories.guideCategoryLabels !! GuideCategory_key g) /\
  is_Some (Categories.guideCategoryColors !! GuideCategory_key g) /\
  (Categories.categoryLabels !! Category_key c
   = Categories.categoryLabels !! Category_key c' <-> c = c') /\
  (Categories.categoryColors !! Category_key c
   = Categories.categoryColors !! Category_key c' <-> c = c') /\
  (Categories.guideCategoryLabels !! GuideCategory_key g
   = Categories.guideCategoryLabels !! GuideCategory_key g' <-> g = g') /\
  (Categories.guideCategoryColors !! GuideCategory_key g
   = Categories.guideCategoryColors !! GuideCategory_key g' <-> g = g').
Proof.
  split_and!.
  - destruct c; vm_compute; eauto.
  - destruct c; vm_compute; eauto.
  - destruct g; vm_compute; eauto.
  - destruct g; vm_compute; eauto.
  - destruct c, c'; vm_compute; split; (reflexivity || discriminate).
  - destruct c, c'; vm_compute; split; (reflexivity || discriminate).
  - destruct g, g'; vm_compute; split; (reflexivity || discriminate).
  - destruct g, g'; vm_compute; split; (reflexivity || discriminate).
Qed.
